(** * Date MCP server: a shallow embedding of its temporal computations

    The repository ships the same four tools twice: a first implementation on
    the JavaScript [Date] object ([src/mcp/server.ts] and [src/mcp/utils.ts],
    first versions, and the FastMCP [index.ts]) and a second one on Luxon
    ([DateTime], [Duration]).  Both are embedded here, each in its own
    module, on top of one model of the proleptic Gregorian calendar that both
    runtimes share (the time-value operations of ECMA-262, which Luxon reaches
    through [Date.UTC] and the [getUTC*] accessors).

    Conventions.  An instant is a count of milliseconds since the epoch.
    JavaScript numbers are modelled exactly: integers as [Z], possibly
    fractional numbers as [Q] kept in lowest terms.  The range limit of
    [Date] (8.64e15 ms) and the rounding of doubles beyond 2^53 are outside
    the model.  The clock, the host time zone, the IANA database and the
    [Intl] formatters are inputs of the functions that read them. *)

From Stdlib Require Import ZArith QArith Qround Qreduction Qabs Lia List String Ascii Bool.
From Stdlib Require Import DecimalString.
Import ListNotations.
Open Scope Z_scope.

(** ** ECMA-262 time values (section "Time Values and Time Range") *)

Module Ecma.

Definition msPerSecond : Z := 1000.
Definition msPerMinute : Z := 60000.
Definition msPerHour : Z := 3600000.
Definition msPerDay : Z := 86400000.

Definition Day (t : Z) : Z := t / msPerDay.
Definition TimeWithinDay (t : Z) : Z := t mod msPerDay.

Definition DayFromYear (y : Z) : Z :=
  365 * (y - 1970) + (y - 1969) / 4 - (y - 1901) / 100 + (y - 1601) / 400.

Definition isLeap (y : Z) : bool :=
  (y mod 4 =? 0) && (negb (y mod 100 =? 0) || (y mod 400 =? 0)).

Definition DaysInYear (y : Z) : Z := if isLeap y then 366 else 365.

(** [YearFromTime t] is "the largest integer y such that TimeFromYear(y) <= t".
    It is computed from the mean year length and corrected by one step;
    [YearFromDay_spec] below shows that this is the year the standard means. *)
Definition YearFromDay (d : Z) : Z :=
  let y := 1970 + (400 * d) / 146097 in
  if DayFromYear (y + 1) <=? d then y + 1
  else if d <? DayFromYear y then y - 1
  else y.

Definition YearFromTime (t : Z) : Z := YearFromDay (Day t).
Definition InLeapYear (t : Z) : Z := if isLeap (YearFromTime t) then 1 else 0.
Definition DayWithinYear (t : Z) : Z := Day t - DayFromYear (YearFromTime t).

(** Day number, within its year, of the first day of month [m] (0..11). *)
Definition monthStart (leap : Z) (m : Z) : Z :=
  if m <=? 0 then 0
  else if m =? 1 then 31
  else if m =? 2 then 59 + leap
  else if m =? 3 then 90 + leap
  else if m =? 4 then 120 + leap
  else if m =? 5 then 151 + leap
  else if m =? 6 then 181 + leap
  else if m =? 7 then 212 + leap
  else if m =? 8 then 243 + leap
  else if m =? 9 then 273 + leap
  else if m =? 10 then 304 + leap
  else if m =? 11 then 334 + leap
  else 365 + leap.

Definition monthOfDayWithinYear (leap : Z) (d : Z) : Z :=
  if d <? 31 then 0
  else if d <? 59 + leap then 1
  else if d <? 90 + leap then 2
  else if d <? 120 + leap then 3
  else if d <? 151 + leap then 4
  else if d <? 181 + leap then 5
  else if d <? 212 + leap then 6
  else if d <? 243 + leap then 7
  else if d <? 273 + leap then 8
  else if d <? 304 + leap then 9
  else if d <? 334 + leap then 10
  else 11.

Definition MonthFromTime (t : Z) : Z :=
  monthOfDayWithinYear (InLeapYear t) (DayWithinYear t).

Definition DateFromTime (t : Z) : Z :=
  DayWithinYear t - monthStart (InLeapYear t) (MonthFromTime t) + 1.

Definition WeekDay (t : Z) : Z := (Day t + 4) mod 7.

Definition HourFromTime (t : Z) : Z := (t / msPerHour) mod 24.
Definition MinFromTime (t : Z) : Z := (t / msPerMinute) mod 60.
Definition SecFromTime (t : Z) : Z := (t / msPerSecond) mod 60.
Definition msFromTime (t : Z) : Z := t mod msPerSecond.

Definition MakeTime (hour min sec ms : Z) : Z :=
  hour * msPerHour + min * msPerMinute + sec * msPerSecond + ms.

(** [MakeDay]: months outside 0..11 carry into the year, and the date is
    added linearly, so that day 0 or day 31 of a short month roll over. *)
Definition MakeDay (year month date : Z) : Z :=
  let ym := year + month / 12 in
  let mn := month mod 12 in
  DayFromYear ym + monthStart (if isLeap ym then 1 else 0) mn + date - 1.

Definition MakeDate (day time : Z) : Z := day * msPerDay + time.

End Ecma.


(** ** JavaScript numbers that may carry a fraction *)

Module Num.

(** [Math.trunc], and the [ToIntegerOrInfinity] conversion that [MakeTime],
    [MakeDay] and [TimeClip] apply to their arguments. *)
Definition trunc (q : Q) : Z :=
  if (Qnum q <? 0)%Z then Qceiling q else Qfloor q.

Definition floor (q : Q) : Z := Qfloor q.

(** Numbers are kept in lowest terms, so that equal numbers are equal terms. *)
Definition add (a b : Q) : Q := Qred (a + b).
Definition sub (a b : Q) : Q := Qred (a - b).
Definition div (a b : Q) : Q := Qred (a / b).
Definition neg (a : Q) : Q := Qred (- a).
Definition abs (a : Q) : Q := Qred (Qabs a).
Definition isZero (a : Q) : bool := (Qnum a =? 0)%Z.
Definition ltb (a b : Q) : bool := negb (Qle_bool b a).

End Num.

(** ** Date and time literals

    The grammar handled here is the extended calendar form of ISO-8601:
    [YYYY-MM-DD], optionally followed by [T hh[:mm[:ss[.f+]]]] and, after a
    time, by an offset.  It holds the date, date-time and
    date-time-with-offset forms.  The two parsers of the code base,
    [Date.parse] and Luxon's [DateTime.fromISO], differ in the forms of it
    they take ([ecmaFormat], [validFields], [validFieldsEcma]); what they
    do with a text outside it is an input of their models. *)

Module Iso.
Import Ecma.

Inductive OffsetSyntax : Type :=
| OffZ                                   (* "Z" *)
| OffColon (neg : bool) (hh mm : Z)      (* "+hh:mm" *)
| OffBasic (neg : bool) (hh mm : Z)      (* "+hhmm"  *)
| OffHour  (neg : bool) (hh : Z).        (* "+hh"    *)

Record TimeOfDay : Type := mkTime
  { t_hour : Z; t_minute : Z; t_second : Z; t_milli : Z }.

(** How much of the time was written: whether the minutes are there, and
    the number of digits of the fraction (0 without a fraction). *)
Record TimeShape : Type := mkShape { w_minutes : bool; w_fraction : nat }.

Record Literal : Type := mkLiteral
  { l_year : Z; l_month : Z; l_day : Z;
    l_time : option TimeOfDay;
    l_shape : TimeShape;
    l_offset : option OffsetSyntax }.

Definition isDigit (c : ascii) : bool :=
  let n := nat_of_ascii c in (48 <=? n)%nat && (n <=? 57)%nat.

Definition digitVal (c : ascii) : Z := Z.of_nat (nat_of_ascii c) - 48.

(** Reads exactly [n] decimal digits. *)
Fixpoint digits (n : nat) (acc : Z) (s : string) : option (Z * string) :=
  match n with
  | O => Some (acc, s)
  | S n' =>
      match s with
      | String c rest =>
          if isDigit c then digits n' (10 * acc + digitVal c) rest else None
      | EmptyString => None
      end
  end.

Definition expect (c : ascii) (s : string) : option string :=
  match s with
  | String c' rest => if Ascii.eqb c c' then Some rest else None
  | EmptyString => None
  end.

(** The fraction of a second, [.f+]: the first three digits count, the
    others are dropped (the value is truncated to the millisecond). *)
Fixpoint fraction (pos : nat) (acc : Z) (count : nat) (s : string)
    : Z * nat * string :=
  match s with
  | String c rest =>
      if isDigit c then
        match pos with
        | O => fraction O acc (S count) rest
        | S p => fraction p (acc + digitVal c * 10 ^ Z.of_nat p) (S count) rest
        end
      else (acc, count, s)
  | EmptyString => (acc, count, s)
  end.

Definition parseFraction (s : string) : option (Z * nat * string) :=
  match s with
  | String "."%char (String c rest) =>
      if isDigit c then Some (fraction 3 0 0 (String c rest)) else None
  | _ => Some (0, O, s)
  end.

Definition parseSeconds (s : string) : option (Z * Z * nat * string) :=
  match s with
  | String ":"%char rest =>
      match digits 2 0 rest with
      | Some (ss, rest') =>
          match parseFraction rest' with
          | Some (ms, n, rest'') => Some (ss, ms, n, rest'')
          | None => None
          end
      | None => None
      end
  | _ => Some (0, 0, O, s)
  end.

Definition parseTime (s : string) : option (TimeOfDay * TimeShape * string) :=
  match digits 2 0 s with
  | Some (hh, String ":"%char rest) =>
      match digits 2 0 rest with
      | Some (mm, rest') =>
          match parseSeconds rest' with
          | Some (ss, ms, n, rest'') =>
              Some (mkTime hh mm ss ms, mkShape true n, rest'')
          | None => None
          end
      | None => None
      end
  | Some (hh, rest) => Some (mkTime hh 0 0 0, mkShape false O, rest)
  | None => None
  end.

Definition isSign (c : ascii) : bool := Ascii.eqb c "+"%char || Ascii.eqb c "-"%char.

Definition parseOffset (s : string) : option (option OffsetSyntax) :=
  match s with
  | EmptyString => Some None
  | String "Z"%char EmptyString => Some (Some OffZ)
  | String c rest =>
      if isSign c then
        let neg := Ascii.eqb c "-"%char in
        match digits 2 0 rest with
        | Some (hh, EmptyString) => Some (Some (OffHour neg hh))
        | Some (hh, String ":"%char rest') =>
            match digits 2 0 rest' with
            | Some (mm, EmptyString) => Some (Some (OffColon neg hh mm))
            | _ => None
            end
        | Some (hh, rest') =>
            match digits 2 0 rest' with
            | Some (mm, EmptyString) => Some (Some (OffBasic neg hh mm))
            | _ => None
            end
        | None => None
        end
      else None
  end.

Definition parseDate (s : string) : option (Z * Z * Z * string) :=
  match digits 4 0 s with
  | Some (y, rest) =>
      match expect "-"%char rest with
      | Some rest1 =>
          match digits 2 0 rest1 with
          | Some (m, rest2) =>
              match expect "-"%char rest2 with
              | Some rest3 =>
                  match digits 2 0 rest3 with
                  | Some (d, rest4) => Some (y, m, d, rest4)
                  | None => None
                  end
              | None => None
              end
          | None => None
          end
      | None => None
      end
  | None => None
  end.

(** The grammar: [None] for a string outside it. *)
Definition parse (s : string) : option Literal :=
  match parseDate s with
  | Some (y, m, d, EmptyString) =>
      Some (mkLiteral y m d None (mkShape false O) None)
  | Some (y, m, d, String "T"%char rest) =>
      match parseTime rest with
      | Some (tod, shape, rest') =>
          match parseOffset rest' with
          | Some off => Some (mkLiteral y m d (Some tod) shape off)
          | None => None
          end
      | None => None
      end
  | _ => None
  end.

(** Offset in minutes east of UTC. *)
Definition offsetMinutes (o : OffsetSyntax) : Z :=
  match o with
  | OffZ => 0
  | OffColon neg hh mm | OffBasic neg hh mm =>
      if neg then - (hh * 60 + mm) else hh * 60 + mm
  | OffHour neg hh => if neg then - (hh * 60) else hh * 60
  end.

Definition timeOrMidnight (l : Literal) : TimeOfDay :=
  match l_time l with Some t => t | None => mkTime 0 0 0 0 end.

(** Field ranges.  The time is on the 24-hour clock, [24:00:00.000] being
    accepted as the end of the day. *)
Definition daysIn (y m : Z) : Z :=
  if m =? 2 then (if isLeap y then 29 else 28)
  else if (m =? 4) || (m =? 6) || (m =? 9) || (m =? 11) then 30 else 31.

Definition validTime (t : TimeOfDay) : bool :=
  ((0 <=? t_hour t) && (t_hour t <=? 23) &&
   (0 <=? t_minute t) && (t_minute t <=? 59) &&
   (0 <=? t_second t) && (t_second t <=? 59) &&
   (0 <=? t_milli t) && (t_milli t <=? 999))
  || ((t_hour t =? 24) && (t_minute t =? 0) && (t_second t =? 0) &&
      (t_milli t =? 0)).

(** Luxon: month 1..12 and a day that exists in that month. *)
Definition validFields (l : Literal) : bool :=
  (1 <=? l_month l) && (l_month l <=? 12) &&
  (1 <=? l_day l) && (l_day l <=? daysIn (l_year l) (l_month l)) &&
  validTime (timeOrMidnight l).

(** ECMA-262: month 01..12 and day 01..31, whatever the month. *)
Definition validFieldsEcma (l : Literal) : bool :=
  (1 <=? l_month l) && (l_month l <=? 12) &&
  (1 <=? l_day l) && (l_day l <=? 31) &&
  validTime (timeOrMidnight l).

(** The date-time format of ECMA-262: a time, when present, has its
    minutes and no fraction or one of three digits; an offset is [Z] or
    [+hh:mm]. *)
Definition ecmaFormat (l : Literal) : bool :=
  match l_time l with
  | None => true
  | Some _ =>
      w_minutes (l_shape l) &&
      (Nat.eqb (w_fraction (l_shape l)) 0 || Nat.eqb (w_fraction (l_shape l)) 3) &&
      match l_offset l with
      | None | Some OffZ | Some (OffColon _ _ _) => true
      | Some _ => false
      end
  end.

(** The wall-clock reading of a literal as a time value on its own clock. *)
Definition localMillis (l : Literal) : Z :=
  let t := timeOrMidnight l in
  MakeDate (MakeDay (l_year l) (l_month l - 1) (l_day l))
           (MakeTime (t_hour t) (t_minute t) (t_second t) (t_milli t)).

(** The instant an offset-carrying literal denotes. *)
Definition denoted (l : Literal) : option Z :=
  match l_offset l with
  | Some o => Some (localMillis l - offsetMinutes o * msPerMinute)
  | None => None
  end.

End Iso.


(** ** Rendering numbers and ISO strings *)

Module Show.
Import Ecma.
Local Open Scope string_scope.
Local Open Scope Z_scope.

(** [String(n)] for an integer [n]. *)
Definition showZ (n : Z) : string := NilZero.string_of_int (Z.to_int n).

Definition digitChar (d : Z) : ascii := ascii_of_nat (48 + Z.to_nat d).

(** [n] on exactly [w] decimal digits, zero-padded ([padStart(w, "0")]). *)
Fixpoint padDigits (w : nat) (n : Z) (acc : string) : string :=
  match w with
  | O => acc
  | S w' => padDigits w' (n / 10) (String (digitChar (n mod 10)) acc)
  end.

Definition pad (w : nat) (n : Z) : string := padDigits w n "".

(** Years 0..9999 take four digits, the others a sign and six digits. *)
Definition showYear (y : Z) : string :=
  if (0 <=? y) && (y <=? 9999) then pad 4 y
  else if y <? 0 then "-" ++ pad 6 (- y) else "+" ++ pad 6 y.

(** Date and time of the time value [t], read on its own clock:
    [YYYY-MM-DDTHH:mm:ss.sss]. *)
Definition showDateTime (t : Z) : string :=
  showYear (YearFromTime t) ++ "-" ++ pad 2 (MonthFromTime t + 1) ++ "-" ++
  pad 2 (DateFromTime t) ++ "T" ++ pad 2 (HourFromTime t) ++ ":" ++
  pad 2 (MinFromTime t) ++ ":" ++ pad 2 (SecFromTime t) ++ "." ++
  pad 3 (msFromTime t).

End Show.

(** ** First implementation: the [Date] object

    [src/mcp/server.ts] and [src/mcp/utils.ts] in their first versions, and
    the FastMCP [index.ts], which holds the same handlers. *)

Module DateImpl.
Import Ecma Show.
Local Open Scope string_scope.
Local Open Scope Z_scope.

(** The host time zone, as ECMA-262 sees it: [LocalTZA(t, true)] for a UTC
    time value and [LocalTZA(t, false)] for a local one, in milliseconds. *)
Record HostZone : Type := mkHost
  { tzaOfUTC : Z -> Z; tzaOfLocal : Z -> Z }.

Definition fixedHost (offsetMinutes : Z) : HostZone :=
  mkHost (fun _ => offsetMinutes * msPerMinute)
         (fun _ => offsetMinutes * msPerMinute).

(** The units of [calculate_date] ([z.enum] of the tool schema). *)
Inductive TimeUnit : Type :=
| seconds | minutes | hours | days | weeks | months | years.

(** [timeUnitJa] *)
Definition timeUnitJa (u : TimeUnit) : string :=
  match u with
  | seconds => "秒" | minutes => "分" | hours => "時間" | days => "日"
  | weeks => "週間" | months => "ヶ月" | years => "年"
  end.

(** Units of [get_time_difference]: one unit, or ["all"]. *)
Inductive DiffUnit : Type :=
| d_seconds | d_minutes | d_hours | d_days | d_all.

Definition diffUnitKey (u : DiffUnit) : string :=
  match u with
  | d_seconds => "seconds" | d_minutes => "minutes" | d_hours => "hours"
  | d_days => "days" | d_all => "all"
  end.

Record Components : Type := mkComponents
  { c_year : Z; c_month : Z; c_day : Z; c_hour : Z; c_minute : Z;
    c_second : Z; c_dayOfWeek : Z; c_weekOfYear : Z }.

Record Context : Type := mkContext
  { x_isWeekend : bool; x_quarter : Z; x_dayOfYear : Z; x_daysInMonth : Z }.

Record Stamp : Type := mkStamp
  { s_iso : string; s_unix : Z; s_human : string; s_milliseconds : Z }.

(** A JavaScript object with number values, in key order. *)
Definition NumObject : Type := list (string * Z).

Fixpoint field (k : string) (o : NumObject) : option Z :=
  match o with
  | [] => None
  | (k', v) :: rest => if String.eqb k k' then Some v else field k rest
  end.

Section Host.

Variable host : HostZone.
(** [Date.prototype.toLocaleDateString(locale, options)] with the options of
    [formatters.toLocaleDateString]: the text comes from [Intl]. *)
Variable intlFormat : Z -> string -> string.
(** The IANA database behind [toLocaleString(..., { timeZone })]: the offset
    of a zone in minutes at an instant, [None] for an unknown name (for which
    [toLocaleString] throws a [RangeError]). *)
Variable tzdb : string -> option (Z -> Z).
(** [String(n)] for a number. *)
Variable numberToString : Q -> string.
(** What [Date.parse] makes of a string outside the ECMA-262 format, which
    the standard leaves to the engine. *)
Variable legacyParse : string -> option Z.

Definition LocalTime (t : Z) : Z := t + tzaOfUTC host t.
Definition UTC (t : Z) : Z := t - tzaOfLocal host t.

Definition getFullYear (tv : Z) : Z := YearFromTime (LocalTime tv).
Definition getMonth (tv : Z) : Z := MonthFromTime (LocalTime tv).
Definition getDate (tv : Z) : Z := DateFromTime (LocalTime tv).
Definition getHours (tv : Z) : Z := HourFromTime (LocalTime tv).
Definition getMinutes (tv : Z) : Z := MinFromTime (LocalTime tv).
Definition getSeconds (tv : Z) : Z := SecFromTime (LocalTime tv).
Definition getDay (tv : Z) : Z := WeekDay (LocalTime tv).
Definition getTimezoneOffset (tv : Z) : Z := (tv - LocalTime tv) / msPerMinute.

(** The setters take a number and convert it with [ToIntegerOrInfinity]. *)
Definition setSeconds (tv : Z) (sec : Q) : Z :=
  let t := LocalTime tv in
  UTC (MakeDate (Day t)
         (MakeTime (HourFromTime t) (MinFromTime t) (Num.trunc sec) (msFromTime t))).

Definition setMinutes (tv : Z) (min : Q) : Z :=
  let t := LocalTime tv in
  UTC (MakeDate (Day t)
         (MakeTime (HourFromTime t) (Num.trunc min) (SecFromTime t) (msFromTime t))).

Definition setHours (tv : Z) (hour : Q) : Z :=
  let t := LocalTime tv in
  UTC (MakeDate (Day t)
         (MakeTime (Num.trunc hour) (MinFromTime t) (SecFromTime t) (msFromTime t))).

Definition setDate (tv : Z) (date : Q) : Z :=
  let t := LocalTime tv in
  UTC (MakeDate (MakeDay (YearFromTime t) (MonthFromTime t) (Num.trunc date))
         (TimeWithinDay t)).

Definition setMonth (tv : Z) (month : Q) : Z :=
  let t := LocalTime tv in
  UTC (MakeDate (MakeDay (YearFromTime t) (Num.trunc month) (DateFromTime t))
         (TimeWithinDay t)).

Definition setFullYear (tv : Z) (year : Q) : Z :=
  let t := LocalTime tv in
  UTC (MakeDate (MakeDay (Num.trunc year) (MonthFromTime t) (DateFromTime t))
         (TimeWithinDay t)).

(** [new Date(year, month, date)]: local midnight; years 0..99 mean 1900+. *)
Definition newDateYMD (year month date : Z) : Z :=
  let yr := if (0 <=? year) && (year <=? 99) then 1900 + year else year in
  UTC (MakeDate (MakeDay yr month date) 0).

Definition toISOString (tv : Z) : string := showDateTime tv ++ "Z".

(** [Date.parse]: on the ECMA-262 date-time format a date alone is UTC, a
    date and time without offset is local time, and a field out of range
    makes the string invalid; any other string goes to the engine's own
    parser. *)
Definition dateParse (s : string) : option Z :=
  match Iso.parse s with
  | Some l =>
      if Iso.ecmaFormat l then
        if Iso.validFieldsEcma l then
          match Iso.l_offset l, Iso.l_time l with
          | Some _, _ => Iso.denoted l
          | None, None => Some (Iso.localMillis l)
          | None, Some _ => Some (UTC (Iso.localMillis l))
          end
        else None
      else legacyParse s
  | None => legacyParse s
  end.

(** *** utils.ts *)

Definition toUnixTimestamp (tv : Z) : Z := tv / 1000.

(** [formatters.toRelativeTime], with the clock it reads. *)
Definition toRelativeTime (date now : Z) : string :=
  let diffMs := now - date in
  let diffSeconds := diffMs / 1000 in
  let diffMinutes := diffSeconds / 60 in
  let diffHours := diffMinutes / 60 in
  let diffDays := diffHours / 24 in
  if 0 <? diffDays then showZ diffDays ++ "日前"
  else if 0 <? diffHours then showZ diffHours ++ "時間前"
  else if 0 <? diffMinutes then showZ diffMinutes ++ "分前"
  else "今".

(** [getWeekNumber] *)
Definition getWeekNumber (tv : Z) : Z :=
  let firstDayOfYear := newDateYMD (getFullYear tv) 0 1 in
  let pastDaysOfYear := (inject_Z (tv - firstDayOfYear) / 86400000)%Q in
  Qceiling ((pastDaysOfYear + inject_Z (getDay firstDayOfYear) + 1) / 7)%Q.

(** [getDayOfYear] *)
Definition getDayOfYear (tv : Z) : Z :=
  let start := newDateYMD (getFullYear tv) 0 0 in
  let diff := tv - start in
  diff / (1000 * 60 * 60 * 24).

(** The unit table of [getHumanReadableDiff], largest first. *)
Definition units : list (string * Z) :=
  [ ("年", 365 * 24 * 60 * 60 * 1000);
    ("ヶ月", 30 * 24 * 60 * 60 * 1000);
    ("週間", 7 * 24 * 60 * 60 * 1000);
    ("日", 24 * 60 * 60 * 1000);
    ("時間", 60 * 60 * 1000);
    ("分", 60 * 1000);
    ("秒", 1000) ].

Fixpoint humanLoop (us : list (string * Z)) (diffMs : Z) (isPast : bool) : string :=
  match us with
  | [] => "今"
  | (name, ms) :: rest =>
      let value := diffMs / ms in
      if 0 <? value then showZ value ++ name ++ (if isPast then "前" else "後")
      else humanLoop rest diffMs isPast
  end.

(** [getHumanReadableDiff(diffMs, isPast)] *)
Definition getHumanReadableDiff (diffMs : Z) (isPast : bool) : string :=
  humanLoop units diffMs isPast.

(** *** The parts of a response shared by the handlers *)

Definition components (tv : Z) : Components :=
  {| c_year := getFullYear tv;
     c_month := getMonth tv + 1;
     c_day := getDate tv;
     c_hour := getHours tv;
     c_minute := getMinutes tv;
     c_second := getSeconds tv;
     c_dayOfWeek := getDay tv;
     c_weekOfYear := getWeekNumber tv |}.

Definition context (tv : Z) : Context :=
  {| x_isWeekend := (getDay tv =? 0) || (getDay tv =? 6);
     x_quarter := (getMonth tv + 3) / 3;
     x_dayOfYear := getDayOfYear tv;
     x_daysInMonth := getDate (newDateYMD (getFullYear tv) (getMonth tv + 1) 0) |}.

Definition stamp (tv : Z) (locale : string) : Stamp :=
  {| s_iso := toISOString tv;
     s_unix := toUnixTimestamp tv;
     s_human := intlFormat tv locale;
     s_milliseconds := tv |}.

(** [a || b] on an optional string: the empty string is falsy. *)
Definition truthy (s : option string) : bool :=
  match s with Some s' => negb (String.eqb s' "") | None => false end.

Definition orElse (a : option string) (b : string) : string :=
  match a with
  | Some s => if String.eqb s "" then b else s
  | None => b
  end.

(** *** get_current_time *)

Record Converted : Type := mkConverted { v_iso : string; v_human : string }.

Record TimezoneInfo : Type := mkTimezoneInfo
  { z_system : string; z_requested : string; z_offset : Z;
    z_converted : option Converted; z_error : option string }.

Record TimeInfo : Type := mkTimeInfo
  { ti_current : Stamp; ti_timezone : TimezoneInfo;
    ti_components : Components; ti_context : Context }.

(** [new Date(now.toLocaleString('en-US', { timeZone }))]: the wall clock of
    the zone, to the second, read back as a local time of the host; [None]
    when [toLocaleString] throws. *)
Definition wallClockInZone (now : Z) (zoneName : string) : option Z :=
  match tzdb zoneName with
  | Some off =>
      let wall := now + off now * msPerMinute in
      Some (UTC (wall - wall mod msPerSecond))
  | None => None
  end.

Definition timezoneBlock (system requested : string) (differs : bool)
    (zoneName : string) (now : Z) (locale : string) : TimezoneInfo :=
  let base := mkTimezoneInfo system requested (getTimezoneOffset now) None None in
  if differs then
    match wallClockInZone now zoneName with
    | Some tzDate =>
        mkTimezoneInfo system requested (getTimezoneOffset now)
          (Some (mkConverted (toISOString tzDate) (intlFormat tzDate locale))) None
    | None =>
        mkTimezoneInfo system requested (getTimezoneOffset now) None
          (Some ("無効なタイムゾーン: " ++ zoneName))
    end
  else base.

(** server.ts: [timezone] is the zone the server was created with. *)
Definition get_current_time (timezone : string)
    (requestTimezone : option string) (locale : string) (now : Z) : TimeInfo :=
  let effectiveTimezone := orElse requestTimezone timezone in
  {| ti_current := stamp now locale;
     ti_timezone :=
       timezoneBlock timezone effectiveTimezone
         (negb (String.eqb effectiveTimezone "") &&
          negb (String.eqb effectiveTimezone timezone))
         effectiveTimezone now locale;
     ti_components := components now;
     ti_context := context now |}.


(** *** calculate_date *)

Record Calculation : Type := mkCalculation
  { k_base_date : string; k_amount : Q; k_unit : TimeUnit;
    k_description : string }.

Record DateResult : Type := mkDateResult
  { r_calculation : Calculation; r_result : Stamp;
    r_components : Components; r_context : Context; r_fromNow : string }.

Definition describe (amount : Q) (unit : TimeUnit) : string :=
  let direction := if Qle_bool amount 0 then "前" else "後" in
  numberToString (Num.abs amount) ++ timeUnitJa unit ++ direction.

(** The [switch (unit)] of the handler. *)
Definition shift (baseDate : Z) (amount : Q) (unit : TimeUnit) : Z :=
  match unit with
  | seconds => setSeconds baseDate (inject_Z (getSeconds baseDate) + amount)
  | minutes => setMinutes baseDate (inject_Z (getMinutes baseDate) + amount)
  | hours => setHours baseDate (inject_Z (getHours baseDate) + amount)
  | days => setDate baseDate (inject_Z (getDate baseDate) + amount)
  | weeks => setDate baseDate (inject_Z (getDate baseDate) + amount * 7)
  | months => setMonth baseDate (inject_Z (getMonth baseDate) + amount)
  | years => setFullYear baseDate (inject_Z (getFullYear baseDate) + amount)
  end.

(** The handler reads the clock once for a missing base date ([now]) and
    twice more for [fromNow] ([now1], [now2]).  The result is the JSON
    object, or the message of the error that was caught. *)
Definition calculate_date (amount : Q) (unit : TimeUnit)
    (base_date : option string) (locale : string) (now now1 now2 : Z)
    : DateResult + string :=
  let parsed :=
    if truthy base_date then dateParse (orElse base_date "") else Some now in
  match parsed with
  | None => inr "エラーが発生しました: 無効な日付形式です"
  | Some baseDate =>
      let resultDate := shift baseDate amount unit in
      inl {| r_calculation :=
               mkCalculation (toISOString baseDate) amount unit
                 (describe amount unit);
             r_result := stamp resultDate locale;
             r_components := components resultDate;
             r_context := context resultDate;
             r_fromNow :=
               getHumanReadableDiff (Z.abs (now1 - resultDate))
                 (resultDate <? now2) |}
  end.

(** *** get_time_difference *)

Record DiffResult : Type := mkDiffResult
  { f_target_date : string; f_current_date : string; f_is_past : bool;
    f_relative : string; f_difference : NumObject; f_human_readable : string }.

(** The object literal [diff] of the handler. *)
Definition diffObject (absDiffMs : Z) : NumObject :=
  [ ("milliseconds", absDiffMs);
    ("seconds", absDiffMs / 1000);
    ("minutes", absDiffMs / (1000 * 60));
    ("hours", absDiffMs / (1000 * 60 * 60));
    ("days", absDiffMs / (1000 * 60 * 60 * 24));
    ("weeks", absDiffMs / (1000 * 60 * 60 * 24 * 7));
    ("months", absDiffMs / (1000 * 60 * 60 * 24 * 30));
    ("years", absDiffMs / (1000 * 60 * 60 * 24 * 365)) ].

Definition selectUnit (unit : DiffUnit) (diff : NumObject) : NumObject :=
  match unit with
  | d_all => diff
  | u => match field (diffUnitKey u) diff with
         | Some v => [(diffUnitKey u, v)]
         | None => []
         end
  end.

Definition get_time_difference (target_date : string) (unit : DiffUnit)
    (now : Z) : DiffResult + string :=
  match dateParse target_date with
  | None => inr "エラーが発生しました: 無効な日付形式です"
  | Some target =>
      let diffMs := now - target in
      let isPast := 0 <? diffMs in
      let absDiffMs := Z.abs diffMs in
      let diff := diffObject absDiffMs in
      inl {| f_target_date := toISOString target;
             f_current_date := toISOString now;
             f_is_past := isPast;
             f_relative := if isPast then "過去" else "未来";
             f_difference := selectUnit unit diff;
             f_human_readable := getHumanReadableDiff absDiffMs isPast |}
  end.

End Host.

End DateImpl.


(** ** Luxon: the part of the library the second implementation calls

    [DateTime] (construction from ISO text, [setZone], [plus], [diff],
    [toRelative], [toISO], the calendar getters) and [Duration] ([as]),
    written after the library's algorithms.  An invalid [DateTime] is
    [None]. *)

Module Luxon.
Import Ecma Show.
Local Open Scope string_scope.
Local Open Scope Z_scope.

Inductive Unit : Type :=
| Years | Quarters | Months | Weeks | Days
| Hours | Minutes | Seconds | Milliseconds.

Definition unitEqb (a b : Unit) : bool :=
  match a, b with
  | Years, Years | Quarters, Quarters | Months, Months | Weeks, Weeks
  | Days, Days | Hours, Hours | Minutes, Minutes | Seconds, Seconds
  | Milliseconds, Milliseconds => true
  | _, _ => false
  end.

Definition memUnit (u : Unit) (us : list Unit) : bool := existsb (unitEqb u) us.

(** A zone: its name, whether its offset is fixed by construction
    ([isUniversal]: true for [FixedOffsetZone], false for an IANA zone), and
    its offset in minutes east of UTC at an instant. *)
Record Zone : Type := mkZone
  { zname : string; zuniversal : bool; zoffset : Z -> Z }.

Definition utcZone : Zone := mkZone "UTC" true (fun _ => 0).

(** [FixedOffsetZone.instance(offset)], the zone of a parsed offset. *)
Definition fixedOffsetZone (offset : Z) : Zone :=
  if offset =? 0 then utcZone
  else mkZone ("UTC" ++ (if offset <? 0 then "-" else "+") ++
               showZ (Z.abs offset / 60) ++
               (if Z.abs offset mod 60 =? 0 then ""
                else ":" ++ pad 2 (Z.abs offset mod 60)))
              true (fun _ => offset).

Definition zoneEquals (a b : Zone) : bool :=
  String.eqb (zname a) (zname b) && Bool.eqb (zuniversal a) (zuniversal b).

Definition lowerChar (c : ascii) : ascii :=
  let n := nat_of_ascii c in
  if ((65 <=? n) && (n <=? 90))%nat then ascii_of_nat (n + 32) else c.

Fixpoint toLowerCase (s : string) : string :=
  match s with
  | EmptyString => EmptyString
  | String c rest => String (lowerChar c) (toLowerCase rest)
  end.

(** Calendar fields, months from 1. *)
Record Obj : Type := mkObj
  { year : Z; month : Z; day : Z;
    hour : Z; minute : Z; second : Z; millisecond : Z }.

(** [tsToObj(ts, offset)] *)
Definition tsToObj (ts offset : Z) : Obj :=
  let t := ts + offset * 60 * 1000 in
  {| year := YearFromTime t; month := MonthFromTime t + 1;
     day := DateFromTime t; hour := HourFromTime t;
     minute := MinFromTime t; second := SecFromTime t;
     millisecond := msFromTime t |}.

(** [objToLocalTS(obj)]: [Date.UTC] of the fields. *)
Definition objToLocalTS (o : Obj) : Z :=
  MakeDate (MakeDay (year o) (month o - 1) (day o))
           (MakeTime (hour o) (minute o) (second o) (millisecond o)).

(** [fixOffset(localTS, o, tz)]: the instant of a local reading, from a
    guess [o] of the offset. *)
Definition fixOffset (localTS o : Z) (tz : Zone) : Z * Z :=
  let utcGuess := localTS - o * 60 * 1000 in
  let o2 := zoffset tz utcGuess in
  if o =? o2 then (utcGuess, o)
  else
    let utcGuess' := utcGuess - (o2 - o) * 60 * 1000 in
    let o3 := zoffset tz utcGuess' in
    if o2 =? o3 then (utcGuess', o2)
    else (localTS - Z.min o2 o3 * 60 * 1000, Z.max o2 o3).

Definition objToTS (obj : Obj) (offset : Z) (zone : Zone) : Z * Z :=
  fixOffset (objToLocalTS obj) offset zone.

Definition isLeapYear (y : Z) : bool :=
  (y mod 4 =? 0) && (negb (y mod 100 =? 0) || (y mod 400 =? 0)).

(** [daysInMonth(year, month)], for any integer month. *)
Definition daysInMonth (y m : Z) : Z :=
  let modMonth := (m - 1) mod 12 + 1 in
  let modYear := y + (m - modMonth) / 12 in
  if modMonth =? 2 then (if isLeapYear modYear then 29 else 28)
  else nth (Z.to_nat (modMonth - 1))
           [31; 0; 31; 30; 31; 30; 31; 31; 30; 31; 30; 31] 0.

(** [dayOfWeek(year, month, day)]: 1 = Monday .. 7 = Sunday. *)
Definition dayOfWeek (y m d : Z) : Z :=
  let js := WeekDay (MakeDate (MakeDay y (m - 1) d) 0) in
  if js =? 0 then 7 else js.

Definition computeOrdinal (y m d : Z) : Z :=
  d + nth (Z.to_nat (m - 1))
          (if isLeapYear y
           then [0; 31; 60; 91; 121; 152; 182; 213; 244; 274; 305; 335]
           else [0; 31; 59; 90; 120; 151; 181; 212; 243; 273; 304; 334]) 0.

Definition weeksInWeekYear (weekYear : Z) : Z :=
  let p1 := (weekYear + weekYear / 4 - weekYear / 100 + weekYear / 400) mod 7 in
  let last := weekYear - 1 in
  let p2 := (last + last / 4 - last / 100 + last / 400) mod 7 in
  if (p1 =? 4) || (p2 =? 3) then 53 else 52.

(** The week number of [gregorianToWeek] (ISO weeks). *)
Definition weekNumberOf (y m d : Z) : Z :=
  let ordinal := computeOrdinal y m d in
  let weekday := dayOfWeek y m d in
  let weekNumber := (ordinal - weekday + 10) / 7 in
  if weekNumber <? 1 then weeksInWeekYear (y - 1)
  else if weeksInWeekYear y <? weekNumber then 1
  else weekNumber.

(** *** DateTime *)

Record DateTime : Type := mkDateTime { ts : Q; zone : Zone }.

(** The time value of [new Date(ts)]. *)
Definition millis (dt : DateTime) : Z := Num.trunc (ts dt).

(** The cached fields [o] and [c] of a [DateTime]. *)
Definition offset (dt : DateTime) : Z := zoffset (zone dt) (millis dt).
Definition c (dt : DateTime) : Obj := tsToObj (millis dt) (offset dt).

Definition fromMillis (t : Z) (z : Zone) : DateTime := mkDateTime (inject_Z t) z.

Definition weekday (dt : DateTime) : Z :=
  dayOfWeek (year (c dt)) (month (c dt)) (day (c dt)).
Definition weekNumber (dt : DateTime) : Z :=
  weekNumberOf (year (c dt)) (month (c dt)) (day (c dt)).
Definition ordinal (dt : DateTime) : Z :=
  computeOrdinal (year (c dt)) (month (c dt)) (day (c dt)).
Definition quarter (dt : DateTime) : Z := (month (c dt) + 2) / 3.
Definition dtDaysInMonth (dt : DateTime) : Z :=
  daysInMonth (year (c dt)) (month (c dt)).

Definition toMillis (dt : DateTime) : Q := ts dt.
Definition toSeconds (dt : DateTime) : Q := Num.div (ts dt) 1000.

(** [a > b] on two [DateTime]s compares their [valueOf()]. *)
Definition gtb (a b : DateTime) : bool := Num.ltb (ts b) (ts a).

(** *** Duration *)

Record Duration : Type := mkDuration
  { d_years : Q; d_quarters : Q; d_months : Q; d_weeks : Q; d_days : Q;
    d_hours : Q; d_minutes : Q; d_seconds : Q; d_milliseconds : Q }.

Definition zeroDuration : Duration := mkDuration 0 0 0 0 0 0 0 0 0.

Definition getUnit (d : Duration) (u : Unit) : Q :=
  match u with
  | Years => d_years d | Quarters => d_quarters d | Months => d_months d
  | Weeks => d_weeks d | Days => d_days d | Hours => d_hours d
  | Minutes => d_minutes d | Seconds => d_seconds d
  | Milliseconds => d_milliseconds d
  end.

Definition setUnit (d : Duration) (u : Unit) (v : Q) : Duration :=
  match u with
  | Years => mkDuration v (d_quarters d) (d_months d) (d_weeks d) (d_days d)
               (d_hours d) (d_minutes d) (d_seconds d) (d_milliseconds d)
  | Quarters => mkDuration (d_years d) v (d_months d) (d_weeks d) (d_days d)
               (d_hours d) (d_minutes d) (d_seconds d) (d_milliseconds d)
  | Months => mkDuration (d_years d) (d_quarters d) v (d_weeks d) (d_days d)
               (d_hours d) (d_minutes d) (d_seconds d) (d_milliseconds d)
  | Weeks => mkDuration (d_years d) (d_quarters d) (d_months d) v (d_days d)
               (d_hours d) (d_minutes d) (d_seconds d) (d_milliseconds d)
  | Days => mkDuration (d_years d) (d_quarters d) (d_months d) (d_weeks d) v
               (d_hours d) (d_minutes d) (d_seconds d) (d_milliseconds d)
  | Hours => mkDuration (d_years d) (d_quarters d) (d_months d) (d_weeks d)
               (d_days d) v (d_minutes d) (d_seconds d) (d_milliseconds d)
  | Minutes => mkDuration (d_years d) (d_quarters d) (d_months d) (d_weeks d)
               (d_days d) (d_hours d) v (d_seconds d) (d_milliseconds d)
  | Seconds => mkDuration (d_years d) (d_quarters d) (d_months d) (d_weeks d)
               (d_days d) (d_hours d) (d_minutes d) v (d_milliseconds d)
  | Milliseconds => mkDuration (d_years d) (d_quarters d) (d_months d)
               (d_weeks d) (d_days d) (d_hours d) (d_minutes d) (d_seconds d) v
  end.

(** [Duration.fromObject({ [unit]: amount })] *)
Definition durationOf (u : Unit) (amount : Q) : Duration :=
  setUnit zeroDuration u (Qred amount).

Definition mapDuration (f : Q -> Q) (d : Duration) : Duration :=
  mkDuration (f (d_years d)) (f (d_quarters d)) (f (d_months d))
    (f (d_weeks d)) (f (d_days d)) (f (d_hours d)) (f (d_minutes d))
    (f (d_seconds d)) (f (d_milliseconds d)).

Definition negate (d : Duration) : Duration := mapDuration Num.neg d.

Definition plusDuration (a b : Duration) : Duration :=
  mkDuration (Num.add (d_years a) (d_years b))
    (Num.add (d_quarters a) (d_quarters b))
    (Num.add (d_months a) (d_months b)) (Num.add (d_weeks a) (d_weeks b))
    (Num.add (d_days a) (d_days b)) (Num.add (d_hours a) (d_hours b))
    (Num.add (d_minutes a) (d_minutes b))
    (Num.add (d_seconds a) (d_seconds b))
    (Num.add (d_milliseconds a) (d_milliseconds b)).

(** The "casual" conversion matrix, the default of a [Duration]:
    [matrix a b] is the number of [b] in one [a], for [a] the larger unit. *)
Definition dayIn (b : Unit) : Z :=
  match b with
  | Days => 1 | Hours => 24 | Minutes => 24 * 60 | Seconds => 24 * 60 * 60
  | Milliseconds => 24 * 60 * 60 * 1000
  | _ => 0
  end.

Definition matrix (a b : Unit) : Z :=
  match a, b with
  | Years, Quarters => 4 | Years, Months => 12 | Years, Weeks => 52
  | Years, _ => 365 * dayIn b
  | Quarters, Months => 3 | Quarters, Weeks => 13
  | Quarters, (Years | Quarters) => 0
  | Quarters, _ => 91 * dayIn b
  | Months, Weeks => 4
  | Months, (Years | Quarters | Months) => 0
  | Months, _ => 30 * dayIn b
  | Weeks, (Years | Quarters | Months | Weeks) => 0
  | Weeks, _ => 7 * dayIn b
  | Days, Hours => 24 | Days, Minutes => 24 * 60
  | Days, Seconds => 24 * 60 * 60 | Days, Milliseconds => 24 * 60 * 60 * 1000
  | Hours, Minutes => 60 | Hours, Seconds => 60 * 60
  | Hours, Milliseconds => 60 * 60 * 1000
  | Minutes, Seconds => 60 | Minutes, Milliseconds => 60 * 1000
  | Seconds, Milliseconds => 1000
  | _, _ => 0
  end.

Definition orderedUnits : list Unit :=
  [Years; Quarters; Months; Weeks; Days; Hours; Minutes; Seconds; Milliseconds].

(** [duration.as(unit)], that is [shiftTo(unit).get(unit)]: every larger
    unit is multiplied into [unit], every smaller one divided into it. *)
Definition contribution (d : Duration) (target k : Unit) : Q :=
  if unitEqb k target then getUnit d k
  else if matrix k target =? 0
       then (getUnit d k / inject_Z (matrix target k))%Q
       else (getUnit d k * inject_Z (matrix k target))%Q.

Definition as_ (d : Duration) (target : Unit) : Q :=
  Qred (fold_left (fun acc k => (acc + contribution d target k)%Q)
                  orderedUnits 0%Q).

(** *** Arithmetic: [dt.plus(duration)] *)

(** [adjustTime(inst, dur)]: whole years, months, weeks and days move the
    calendar fields (the day is first clamped to the length of the target
    month); everything else is added as milliseconds. *)
Definition frac (q : Q) : Q := (q - inject_Z (Num.trunc q))%Q.

Definition adjustTime (inst : DateTime) (dur : Duration) : Q :=
  let oPre := offset inst in
  let c0 := c inst in
  let year' := year c0 + Num.trunc (d_years dur) in
  let month' := month c0 + Num.trunc (d_months dur)
                + Num.trunc (d_quarters dur) * 3 in
  let c' :=
    {| year := year'; month := month';
       day := Z.min (day c0) (daysInMonth year' month')
              + Num.trunc (d_days dur) + Num.trunc (d_weeks dur) * 7;
       hour := hour c0; minute := minute c0; second := second c0;
       millisecond := millisecond c0 |} in
  let millisToAdd :=
    as_ (mkDuration (frac (d_years dur)) (frac (d_quarters dur))
           (frac (d_months dur)) (frac (d_weeks dur)) (frac (d_days dur))
           (d_hours dur) (d_minutes dur) (d_seconds dur) (d_milliseconds dur))
        Milliseconds in
  let localTS := objToLocalTS c' in
  let ts' := fst (fixOffset localTS oPre (zone inst)) in
  if Num.isZero millisToAdd then inject_Z ts'
  else Num.add (inject_Z ts') millisToAdd.

Definition plus (dt : DateTime) (dur : Duration) : DateTime :=
  mkDateTime (adjustTime dt dur) (zone dt).

(** *** Differences: [dt.diff(other, units)] *)

Definition utcDayStart (dt : DateTime) : Z :=
  MakeDate (MakeDay (year (c dt)) (month (c dt) - 1) (day (c dt))) 0.

Definition dayDiff (earlier later : DateTime) : Z :=
  (utcDayStart later - utcDayStart earlier) / msPerDay.

(** The [differs] table of [highOrderDiffs]. *)
Definition differ (u : Unit) (a b : DateTime) : Z :=
  match u with
  | Years => year (c b) - year (c a)
  | Quarters => quarter b - quarter a + (year (c b) - year (c a)) * 4
  | Months => month (c b) - month (c a) + (year (c b) - year (c a)) * 12
  | Weeks => let days := dayDiff a b in (days - Z.rem days 7) / 7
  | _ => dayDiff a b
  end.

Definition highOrderUnits : list Unit := [Years; Quarters; Months; Weeks; Days].
Definition lowOrderUnits : list Unit := [Hours; Minutes; Seconds; Milliseconds].

(** The variables of the loop of [highOrderDiffs].  [h_same] records that
    [highWater] and [cursor] are one object, which the caller tests with
    [!==]. *)
Record HighOrder : Type := mkHighOrder
  { h_cursor : DateTime; h_results : Duration;
    h_highWater : option DateTime; h_lowestOrder : option Unit;
    h_same : bool }.

Definition decrement (d : Duration) (u : Unit) : Duration :=
  setUnit d u (Num.sub (getUnit d u) 1).

Definition highOrderStep (earlier later : DateTime) (units : list Unit)
    (st : HighOrder) (unit : Unit) : HighOrder :=
  if memUnit unit units then
    let r0 := setUnit (h_results st) unit
                (inject_Z (differ unit (h_cursor st) later)) in
    let highWater := plus earlier r0 in
    if gtb highWater later then
      let r1 := decrement r0 unit in
      let cursor := plus earlier r1 in
      if gtb cursor later then
        let r2 := decrement r1 unit in
        mkHighOrder (plus earlier r2) r2 (Some cursor) (Some unit) false
      else mkHighOrder cursor r1 (Some highWater) (Some unit) false
    else mkHighOrder highWater r0 (Some highWater) (Some unit) true
  else st.

Definition highOrderDiffs (earlier later : DateTime) (units : list Unit)
    : HighOrder :=
  fold_left (highOrderStep earlier later units) highOrderUnits
    (mkHighOrder earlier zeroDuration None None false).

(** [Duration.fromMillis(r).shiftTo(...units)] for units below the day and
    [r >= 0]: whole counts of each unit in turn, the rest (with its fraction)
    in the last one. *)
Definition unitMillis (u : Unit) : Z :=
  if unitEqb u Milliseconds then 1 else matrix u Milliseconds.

Fixpoint shiftLow (us : list Unit) (r : Q) (acc : Duration) : Duration :=
  match us with
  | [] => acc
  | [u] => setUnit acc u (Num.div r (inject_Z (unitMillis u)))
  | u :: rest =>
      let size := inject_Z (unitMillis u) in
      let n := inject_Z (Num.floor (r / size)) in
      shiftLow rest (Num.sub r (n * size)) (setUnit acc u n)
  end.

Definition diffOrdered (earlier later : DateTime) (units : list Unit)
    : Duration :=
  let st := highOrderDiffs earlier later units in
  let cursor := h_cursor st in
  let remainingMillis := Num.sub (ts later) (ts cursor) in
  let lowerOrderUnits := filter (fun u => memUnit u units) lowOrderUnits in
  match lowerOrderUnits with
  | [] =>
      match h_highWater st, h_lowestOrder st with
      | Some highWater, Some lowestOrder =>
          let '(highWater', same) :=
            if gtb later highWater
            then (plus cursor (durationOf lowestOrder 1), false)
            else (highWater, h_same st) in
          if same then h_results st
          else setUnit (h_results st) lowestOrder
                 (Num.add (getUnit (h_results st) lowestOrder)
                    (remainingMillis / (ts highWater' - ts cursor)))
      | _, _ => h_results st
      end
  | _ => plusDuration (shiftLow lowerOrderUnits remainingMillis zeroDuration)
           (h_results st)
  end.

Definition diff (this other : DateTime) (units : list Unit) : Duration :=
  if gtb other this then negate (diffOrdered this other units)
  else diffOrdered other this units.

(** *** Relative time: [dt.toRelative({ base })]

    The text comes from [Intl.RelativeTimeFormat] in the locale of the
    [DateTime]; [relFormat negative magnitude unit] stands for
    [format(count, unit)] with [numeric: "always"], the sign apart because
    -0 and 0 are rendered differently. *)
Definition RelFormat : Type := bool -> Z -> Unit -> string.

Definition unitName (u : Unit) : string :=
  match u with
  | Years => "year" | Quarters => "quarter" | Months => "month"
  | Weeks => "week" | Days => "day" | Hours => "hour"
  | Minutes => "minute" | Seconds => "second" | Milliseconds => "millisecond"
  end.

(** The English formatter. *)
Definition relFormatEn : RelFormat := fun negative n u =>
  let counted := showZ n ++ " " ++ unitName u ++ (if n =? 1 then "" else "s") in
  if negative then counted ++ " ago" else "in " ++ counted.

Definition relativeUnits : list Unit :=
  [Years; Months; Days; Hours; Minutes; Seconds].

Definition isNegative (q : Q) : bool := (Qnum q <? 0)%Z.

Fixpoint diffRelativeLoop (fmt : RelFormat) (start end_ : DateTime)
    (us : list Unit) : string :=
  match us with
  | [] => fmt (gtb start end_) 0 Seconds
  | u :: rest =>
      let count := getUnit (diff end_ start [u]) u in
      if Qle_bool 1 (Qabs count)
      then fmt (isNegative count) (Z.abs (Num.trunc count)) u
      else diffRelativeLoop fmt start end_ rest
  end.

Definition toRelative (fmt : RelFormat) (this base : DateTime) : string :=
  diffRelativeLoop fmt base (plus this zeroDuration) relativeUnits.

(** *** Zones by name, parsing and printing *)

Section Runtime.

(** The IANA database of the runtime: the offset function of a zone name,
    [None] for a name [Intl] rejects. *)
Variable tzdb : string -> option (Z -> Z).
(** [Settings.defaultZone], which is the system zone. *)
Variable defaultZone : Zone.
(** [DateTime.fromISO] on a text outside the grammar of [Iso] (week and
    ordinal dates, the basic format, ...), for the zone asked for. *)
Variable fromISOOther : string -> Zone -> option DateTime.

(** [normalizeZone(name)] on a string: the keywords, then the database.
    (Specifiers of the form [UTC+9] are not modelled.) *)
Definition normalizeZone (name : string) : option Zone :=
  let lowered := toLowerCase name in
  if String.eqb lowered "default" || String.eqb lowered "local"
     || String.eqb lowered "system" then Some defaultZone
  else if String.eqb lowered "utc" || String.eqb lowered "gmt" then Some utcZone
  else match tzdb name with
       | Some f => Some (mkZone name false f)
       | None => None
       end.

(** [dt.setZone(zone, { keepLocalTime })] *)
Definition setZone (dt : DateTime) (z : Zone) (keepLocalTime : bool) : DateTime :=
  if zoneEquals z (zone dt) then dt
  else if keepLocalTime then
    let offsetGuess := zoffset z (millis dt) in
    mkDateTime (inject_Z (fst (objToTS (c dt) offsetGuess z))) z
  else mkDateTime (ts dt) z.

Definition setZoneNamed (dt : DateTime) (name : string) (keepLocalTime : bool)
    : option DateTime :=
  match normalizeZone name with
  | Some z => Some (setZone dt z keepLocalTime)
  | None => None
  end.

(** [DateTime.fromISO(text, { zone })]; [tsNow] is the clock, which
    [fromObject] reads for its first guess of the offset.  A literal with an
    offset is read in the fixed zone of that offset and then moved to the
    requested zone; a literal without one is read in the requested zone. *)
Definition fromISO (tsNow : Z) (text : string) (z : option Zone)
    : option DateTime :=
  let target := match z with Some z' => z' | None => defaultZone end in
  match Iso.parse text with
  | Some l =>
      if Iso.validFields l then
        let t := Iso.timeOrMidnight l in
        let obj := mkObj (Iso.l_year l) (Iso.l_month l) (Iso.l_day l)
                     (Iso.t_hour t) (Iso.t_minute t) (Iso.t_second t)
                     (Iso.t_milli t) in
        let interpretationZone :=
          match Iso.l_offset l with
          | Some o => fixedOffsetZone (Iso.offsetMinutes o)
          | None => target
          end in
        let offsetProvis := zoffset interpretationZone tsNow in
        let inst := mkDateTime
                      (inject_Z (fst (objToTS obj offsetProvis interpretationZone)))
                      interpretationZone in
        Some (setZone inst target false)
      else None
  | None => fromISOOther text target
  end.

End Runtime.

(** [dt.toISO()]: extended format with milliseconds and offset. *)
Definition showOffset (dt : DateTime) : string :=
  let o := offset dt in
  if zuniversal (zone dt) && (o =? 0) then "Z"
  else if o <? 0
       then "-" ++ pad 2 (Z.quot (- o) 60) ++ ":" ++ pad 2 (Z.rem (- o) 60)
       else "+" ++ pad 2 (Z.quot o 60) ++ ":" ++ pad 2 (Z.rem o 60).

Definition toISO (dt : DateTime) : string :=
  showDateTime (millis dt + offset dt * 60 * 1000) ++ showOffset dt.

End Luxon.

(** ** Second implementation: Luxon

    [src/mcp/utils.ts] and [src/mcp/server.ts] in their second versions. *)

Module LuxonImpl.
Import Ecma Show Luxon.
Local Open Scope string_scope.
Local Open Scope Z_scope.

(** The keys of [timeUnits]. *)
Inductive TimeUnit : Type :=
| seconds | minutes | hours | days | weeks | months | years.

Definition timeUnits (u : TimeUnit) : string :=
  match u with
  | seconds => "second" | minutes => "minute" | hours => "hour"
  | days => "day" | weeks => "week" | months => "month" | years => "year"
  end.

Definition unitKey (u : TimeUnit) : Unit :=
  match u with
  | seconds => Seconds | minutes => Minutes | hours => Hours | days => Days
  | weeks => Weeks | months => Months | years => Years
  end.

Inductive DiffUnit : Type :=
| d_seconds | d_minutes | d_hours | d_days | d_all.

Definition diffUnitKey (u : DiffUnit) : string :=
  match u with
  | d_seconds => "seconds" | d_minutes => "minutes" | d_hours => "hours"
  | d_days => "days" | d_all => "all"
  end.

Record Components : Type := mkComponents
  { c_year : Z; c_month : Z; c_day : Z; c_hour : Z; c_minute : Z;
    c_second : Z; c_dayOfWeek : Z; c_weekOfYear : Z; c_offset : Z }.

Record Context : Type := mkContext
  { x_isWeekend : bool; x_quarter : Z; x_dayOfYear : Z; x_daysInMonth : Z }.

Record DateInfo : Type := mkDateInfo
  { s_iso : string; s_unix : Z; s_human : string; s_milliseconds : Q }.

(** A JavaScript object with number values, in key order. *)
Definition NumObject : Type := list (string * Q).

Fixpoint field (k : string) (o : NumObject) : option Q :=
  match o with
  | [] => None
  | (k', v) :: rest => if String.eqb k k' then Some v else field k rest
  end.

(** *** utils.ts *)

Definition getWeekNumber (dt : DateTime) : Z := weekNumber dt.
Definition getDayOfYear (dt : DateTime) : Z := ordinal dt.

(** [getDateComponents] *)
Definition getDateComponents (dt : DateTime) : Components :=
  {| c_year := year (c dt);
     c_month := month (c dt);
     c_day := day (c dt);
     c_hour := hour (c dt);
     c_minute := minute (c dt);
     c_second := second (c dt);
     c_dayOfWeek := if weekday dt =? 7 then 0 else weekday dt;
     c_weekOfYear := weekNumber dt;
     c_offset := - offset dt |}.

(** [getDateContext] *)
Definition getDateContext (dt : DateTime) : Context :=
  {| x_isWeekend := 6 <=? weekday dt;
     x_quarter := quarter dt;
     x_dayOfYear := ordinal dt;
     x_daysInMonth := dtDaysInMonth dt |}.

(** [/[+-]\d{2}:\d{2}|Z$/.test(dateStr)] *)
Definition offsetHere (s : string) : bool :=
  match s with
  | String sign (String a (String b (String colon (String c0 (String d _))))) =>
      Iso.isSign sign && Iso.isDigit a && Iso.isDigit b &&
      Ascii.eqb colon ":"%char && Iso.isDigit c0 && Iso.isDigit d
  | _ => false
  end.

Fixpoint offsetAnywhere (s : string) : bool :=
  offsetHere s ||
  match s with
  | String _ rest => offsetAnywhere rest
  | EmptyString => false
  end.

Fixpoint endsWithZ (s : string) : bool :=
  match s with
  | EmptyString => false
  | String ch EmptyString => Ascii.eqb ch "Z"%char
  | String _ rest => endsWithZ rest
  end.

Definition hasTimezone (dateStr : string) : bool :=
  offsetAnywhere dateStr || endsWithZ dateStr.

Section Runtime.

Variable tzdb : string -> option (Z -> Z).
Variable defaultZone : Zone.
Variable fromISOOther : string -> Zone -> option DateTime.
(** [toLocaleString(DateTime.DATETIME_FULL_WITH_SECONDS)] in a locale. *)
Variable intlFormat : DateTime -> string -> string.
(** The relative-time formatter of the default locale. *)
Variable relFormat : RelFormat.
(** [String(n)] for a number. *)
Variable numberToString : Q -> string.

(** [getHumanReadableDiff]: [toRelative] is null on an invalid [DateTime]. *)
Definition getHumanReadableDiff (dt1 dt2 : option DateTime) : string :=
  match dt1, dt2 with
  | Some a, Some b =>
      let r := toRelative relFormat a b in
      if String.eqb r "" then "now" else r
  | _, _ => "now"
  end.

(** [formatDateInfo] *)
Definition formatDateInfo (dt : DateTime) (locale : string) : DateInfo :=
  {| s_iso := toISO dt;
     s_unix := Num.floor (toSeconds dt);
     s_human := intlFormat dt locale;
     s_milliseconds := toMillis dt |}.

(** [parseDateWithTimezone(dateStr, fallbackTimezone)], with the clock that
    Luxon consults while parsing. *)
Definition parseDateWithTimezone (tsNow : Z) (dateStr : string)
    (fallbackTimezone : option string) : option DateTime :=
  if hasTimezone dateStr then fromISO defaultZone fromISOOther tsNow dateStr None
  else
    let viaFallback :=
      match fallbackTimezone with
      | Some tz =>
          if String.eqb tz "" then None
          else match fromISO defaultZone fromISOOther tsNow dateStr (Some utcZone) with
               | Some dt => setZoneNamed tzdb defaultZone dt tz true
               | None => None
               end
      | None => None
      end in
    match viaFallback with
    | Some dt => Some dt
    | None => fromISO defaultZone fromISOOther tsNow dateStr None
    end.

(** [addDuration] *)
Definition addDuration (dt : DateTime) (amount : Q) (unit : TimeUnit) : DateTime :=
  plus dt (durationOf (unitKey unit) amount).

Definition diffUnits : list Unit :=
  [Years; Months; Days; Hours; Minutes; Seconds; Milliseconds].

(** [calculateDifference] *)
Definition whole (d : Duration) (u : Unit) : Q :=
  inject_Z (Num.floor (Qabs (as_ d u))).

Definition calculateDifference (dt1 dt2 : DateTime) : NumObject :=
  let diff := diff dt1 dt2 diffUnits in
  [ ("milliseconds", Num.abs (d_milliseconds diff));
    ("seconds", whole diff Seconds);
    ("minutes", whole diff Minutes);
    ("hours", whole diff Hours);
    ("days", whole diff Days);
    ("weeks", whole diff Weeks);
    ("months", whole diff Months);
    ("years", whole diff Years) ].

(** *** server.ts *)

Definition orElse (a : option string) (b : string) : string :=
  match a with
  | Some s => if String.eqb s "" then b else s
  | None => b
  end.

Definition truthy (s : option string) : bool :=
  match s with Some s' => negb (String.eqb s' "") | None => false end.

(** What a response shows of a [DateTime]. *)
Record View : Type := mkView
  { v_info : DateInfo; v_components : Components; v_context : Context }.

Definition view (dt : DateTime) (locale : string) : View :=
  mkView (formatDateInfo dt locale) (getDateComponents dt) (getDateContext dt).

(** [DateTime.now().setZone(name)] *)
Definition nowIn (now : Z) (name : string) : option DateTime :=
  setZoneNamed tzdb defaultZone (fromMillis now defaultZone) name false.

(** get_current_time *)
Definition get_current_time (timezone : string)
    (requestTimezone : option string) (locale : string) (now : Z)
    : View + string :=
  let effectiveTimezone := orElse requestTimezone timezone in
  match nowIn now effectiveTimezone with
  | Some dt => inl (view dt locale)
  | None => inr ("Error occurred: Invalid timezone: " ++ effectiveTimezone)
  end.

Record Calculation : Type := mkCalculation
  { k_base_date : string; k_amount : Q; k_unit : TimeUnit;
    k_description : string }.

(** The response of calculate_date.  [r_view] is [None] when the result is
    an invalid [DateTime] (unknown zone): its numbers are then [NaN] and its
    texts empty. *)
Record DateResult : Type := mkDateResult
  { r_calculation : Calculation; r_view : option View; r_fromNow : string }.

Definition describe (amount : Q) (unit : TimeUnit) : string :=
  let direction := if Qle_bool amount 0 then "ago" else "later" in
  let absAmount := Num.abs amount in
  numberToString absAmount ++ " " ++ timeUnits unit ++
  (if Qeq_bool absAmount 1 then "" else "s") ++ " " ++ direction.

(** calculate_date.  [now] is the clock at the start of the request and
    [now2] the clock when [fromNow] is computed. *)
Definition calculate_date (timezone : string) (amount : Q) (unit : TimeUnit)
    (base_date base_timezone requestTimezone : option string)
    (locale : string) (now now2 : Z) : DateResult + string :=
  let effectiveTimezone := orElse requestTimezone timezone in
  let base : option DateTime + string :=
    if truthy base_date then
      match parseDateWithTimezone now (orElse base_date "")
              (Some (orElse base_timezone timezone)) with
      | Some parsed => inl (Some parsed)
      | None => inr "Error occurred: Invalid date format"
      end
    else inl (nowIn now timezone) in
  match base with
  | inr msg => inr msg
  | inl baseDateTime =>
      let resultDateTime :=
        option_map (fun dt => addDuration dt amount unit) baseDateTime in
      let resultInTargetZone :=
        match resultDateTime with
        | Some dt => setZoneNamed tzdb defaultZone dt effectiveTimezone false
        | None => None
        end in
      inl {| r_calculation :=
               mkCalculation
                 (match baseDateTime with Some dt => toISO dt | None => "" end)
                 amount unit (describe amount unit);
             r_view := option_map (fun dt => view dt locale) resultInTargetZone;
             r_fromNow :=
               getHumanReadableDiff resultInTargetZone
                 (nowIn now2 effectiveTimezone) |}
  end.

(** The response of get_time_difference; [None] for the parts computed from
    an invalid [DateTime]. *)
Record DiffResult : Type := mkDiffResult
  { f_reference_date : option DateInfo; f_current_date : option DateInfo;
    f_is_past : bool; f_relative : string;
    f_difference : option NumObject; f_human_readable : string }.

Definition selectUnit (unit : DiffUnit) (diff : NumObject) : NumObject :=
  match unit with
  | d_all => diff
  | u => match field (diffUnitKey u) diff with
         | Some v => [(diffUnitKey u, v)]
         | None => []
         end
  end.

(** get_time_difference *)
Definition get_time_difference (timezone : string) (reference_date : string)
    (reference_timezone : option string) (unit : DiffUnit)
    (requestTimezone : option string) (locale : string) (now : Z)
    : DiffResult + string :=
  let effectiveTimezone := orElse requestTimezone timezone in
  let now' := nowIn now effectiveTimezone in
  match parseDateWithTimezone now reference_date
          (Some (orElse reference_timezone timezone)) with
  | None => inr "Error occurred: Invalid date format"
  | Some parsed =>
      let target := setZoneNamed tzdb defaultZone parsed effectiveTimezone false in
      let isPast :=
        match now', target with
        | Some n, Some t => gtb n t
        | _, _ => false
        end in
      inl {| f_reference_date := option_map (fun dt => formatDateInfo dt locale) target;
             f_current_date := option_map (fun dt => formatDateInfo dt locale) now';
             f_is_past := isPast;
             f_relative := if isPast then "past" else "future";
             f_difference :=
               match now', target with
               | Some n, Some t => Some (selectUnit unit (calculateDifference n t))
               | _, _ => None
               end;
             f_human_readable := getHumanReadableDiff target now' |}
  end.



End Runtime.

End LuxonImpl.

(** ** An excerpt of the IANA time zone database

    The zones the examples below use.  [newYork] holds the rules of 2025
    and is only consulted at instants of that year. *)

Module Tz.
Local Open Scope string_scope.
Local Open Scope Z_scope.

Definition tokyo : Z -> Z := fun _ => 540.

(** America/New_York: EST (-05:00) until 2025-03-09T07:00:00Z, then EDT
    (-04:00) until 2025-11-02T06:00:00Z. *)
Definition newYork : Z -> Z := fun t =>
  if t <? 1741503600000 then -300
  else if t <? 1762063200000 then -240
  else -300.

Definition tzdb (name : string) : option (Z -> Z) :=
  if String.eqb name "Asia/Tokyo" then Some tokyo
  else if String.eqb name "America/New_York" then Some newYork
  else if String.eqb name "Etc/UTC" then Some (fun _ => 0)
  else None.


(** Stand-ins for the [Intl] texts and for [String(n)], for examples that
    do not look at them. *)
Definition noText {A : Type} : A -> string -> string := fun _ _ => "".
Definition noNumber : Q -> string := fun _ => "".

(** An engine whose [Date.parse] takes the standard format only, and a
    Luxon that reads no text beyond the grammar of [Iso]. *)
Definition noLegacy : string -> option Z := fun _ => None.
Definition noOther : string -> Luxon.Zone -> option Luxon.DateTime :=
  fun _ _ => None.

End Tz.

(** ** The specification's words, for comparison *)

Module Spec.
Import Ecma.
Local Open Scope Z_scope.

(** Section 4.4: "count whole elapsed calendar months/years between the
    two moments in their zone".  The calendar fields are those of UTC: the
    months between the two dates, less one when the later moment comes
    earlier in its month than the earlier moment in its own. *)
Definition withinMonth (t : Z) : Z := DateFromTime t * msPerDay + TimeWithinDay t.

Definition wholeMonths (a b : Z) : Z :=
  let lo := Z.min a b in
  let hi := Z.max a b in
  let months := (YearFromTime hi - YearFromTime lo) * 12
                + (MonthFromTime hi - MonthFromTime lo) in
  if withinMonth hi <? withinMonth lo then months - 1 else months.

Definition wholeYears (a b : Z) : Z := wholeMonths a b / 12.

(** Section 4.4: "each magnitude is floor(elapsedMs / unitLengthMs)". *)
Definition unitLengthMs (key : string) : Z :=
  if String.eqb key "milliseconds" then 1
  else if String.eqb key "seconds" then 1000
  else if String.eqb key "minutes" then 60 * 1000
  else if String.eqb key "hours" then 60 * 60 * 1000
  else if String.eqb key "days" then 24 * 60 * 60 * 1000
  else if String.eqb key "weeks" then 7 * 24 * 60 * 60 * 1000
  else 0.

Definition magnitude (a b : Z) (key : string) : Z :=
  Z.abs (a - b) / unitLengthMs key.

End Spec.

(** ** Notions the statements below use *)

Module Props.
Import Ecma Luxon.
Local Open Scope Z_scope.

(** The length in milliseconds of the units the casual matrix converts. *)
Definition unitLength (u : Unit) : Z :=
  match u with
  | Years => 365 * 86400000
  | Quarters => 91 * 86400000
  | Months => 30 * 86400000
  | Weeks => 7 * 86400000
  | Days => 86400000
  | Hours => 3600000
  | Minutes => 60000
  | Seconds => 1000
  | Milliseconds => 1
  end.

(** The five units the specification calls fixed-length. *)
Definition fixedLength (u : LuxonImpl.TimeUnit) : option Z :=
  match u with
  | LuxonImpl.seconds => Some 1000
  | LuxonImpl.minutes => Some 60000
  | LuxonImpl.hours => Some 3600000
  | LuxonImpl.days => Some 86400000
  | LuxonImpl.weeks => Some (7 * 86400000)
  | _ => None
  end.

Definition isClockUnit (u : LuxonImpl.TimeUnit) : bool :=
  match u with
  | LuxonImpl.seconds | LuxonImpl.minutes | LuxonImpl.hours => true
  | _ => false
  end.

Definition constantOffset (z : Zone) : Prop :=
  forall a b, zoffset z a = zoffset z b.


Definition validObj (o : Obj) : Prop :=
  1 <= month o <= 12 /\ 1 <= day o <= daysInMonth (year o) (month o)
  /\ 0 <= hour o <= 23 /\ 0 <= minute o <= 59 /\ 0 <= second o <= 59
  /\ 0 <= millisecond o <= 999.

(** The target of a move by whole years and months: the month carried into
    the year, the day cut to the length of that month, the clock kept. *)
Definition moved (f : Obj) (ny nm : Z) : Obj :=
  let y' := year f + ny + (month f + nm - 1) / 12 in
  let m' := (month f + nm - 1) mod 12 + 1 in
  {| year := y'; month := m';
     day := Z.min (day f) (daysInMonth y' m');
     hour := hour f; minute := minute f; second := second f;
     millisecond := millisecond f |}.

(** The calendar fields a literal spells out. *)
Definition literalObj (l : Iso.Literal) : Obj :=
  let t := Iso.timeOrMidnight l in
  mkObj (Iso.l_year l) (Iso.l_month l) (Iso.l_day l)
        (Iso.t_hour t) (Iso.t_minute t) (Iso.t_second t) (Iso.t_milli t).

(** A text that does not go on with a digit. *)
Definition stops (s : string) : Prop :=
  match s with
  | EmptyString => True
  | String ch _ => Iso.isDigit ch = false
  end.

End Props.

(** ** Notions for the further properties *)

Module Shapes.
Import Luxon.
Local Open Scope string_scope.

(** A text that starts with what [[+-]\d{2}:\d{2}] matches. *)
Definition startsWithOffset (t : string) : Prop :=
  exists sign a b c0 d rest,
    t = String sign (String a (String b (String ":"%char
          (String c0 (String d rest)))))
    /\ (sign = "+"%char \/ sign = "-"%char)
    /\ Iso.isDigit a = true /\ Iso.isDigit b = true
    /\ Iso.isDigit c0 = true /\ Iso.isDigit d = true.

(** What [/[+-]\d{2}:\d{2}|Z$/] matches: the first alternative anywhere in
    the text, or a [Z] that ends it. *)
Definition matchesPattern (s : string) : Prop :=
  (exists p t, s = p ++ t /\ startsWithOffset t) \/ (exists p, s = p ++ "Z").

(** The loop of [highOrderDiffs] between an instant [a] and itself: the
    cursor stays on [a] and nothing is counted. *)
Definition settled (a : DateTime) (st : HighOrder) : Prop :=
  h_cursor st = a /\ h_results st = zeroDuration
  /\ (h_highWater st = None /\ h_lowestOrder st = None
      \/ h_highWater st = Some a /\ h_same st = true
         /\ exists u, h_lowestOrder st = Some u).

(** The object [calculateDifference] returns when nothing elapsed. *)
Definition noDifference : LuxonImpl.NumObject :=
  [ ("milliseconds", 0%Q); ("seconds", 0%Q); ("minutes", 0%Q); ("hours", 0%Q);
    ("days", 0%Q); ("weeks", 0%Q); ("months", 0%Q); ("years", 0%Q) ].

End Shapes.

(** * Properties *)

Module EcmaFacts.
Import Ecma.

Ltac unfold_ms := unfold msPerDay, msPerHour, msPerMinute, msPerSecond in *.

Lemma YearFromDay_spec d :
  DayFromYear (YearFromDay d) <= d < DayFromYear (YearFromDay d + 1).
Proof.
  unfold YearFromDay; cbv zeta.
  destruct (Z.leb_spec (DayFromYear (1970 + 400 * d / 146097 + 1)) d);
  [|destruct (Z.ltb_spec d (DayFromYear (1970 + 400 * d / 146097)))];
  unfold DayFromYear in *; Z.div_mod_to_equations; lia.
Qed.

Lemma isLeap_true y : isLeap y = true <-> (y mod 4 = 0 /\ (y mod 100 <> 0 \/ y mod 400 = 0)).
Proof.
  unfold isLeap.
  rewrite andb_true_iff, orb_true_iff, negb_true_iff, !Z.eqb_eq, Z.eqb_neq.
  tauto.
Qed.

Lemma DayFromYear_succ y :
  DayFromYear (y + 1) = DayFromYear y + DaysInYear y.
Proof.
  unfold DaysInYear.
  destruct (isLeap y) eqn:E.
  - apply isLeap_true in E. unfold DayFromYear. Z.div_mod_to_equations. lia.
  - assert (H : ~ (y mod 4 = 0 /\ (y mod 100 <> 0 \/ y mod 400 = 0))).
    { rewrite <- isLeap_true. congruence. }
    unfold DayFromYear. Z.div_mod_to_equations. lia.
Qed.

Lemma DayFromYear_mono a b : a <= b -> DayFromYear a <= DayFromYear b.
Proof. intros H. unfold DayFromYear. Z.div_mod_to_equations. lia. Qed.

Lemma DayFromYear_lt a b : a < b -> DayFromYear a < DayFromYear b.
Proof. intros H. unfold DayFromYear. Z.div_mod_to_equations. lia. Qed.

Lemma YearFromDay_unique d y :
  DayFromYear y <= d < DayFromYear (y + 1) -> YearFromDay d = y.
Proof.
  intros H. pose proof (YearFromDay_spec d) as S.
  destruct (Z.lt_trichotomy (YearFromDay d) y) as [L | [E | G]]; auto.
  - assert (DayFromYear (YearFromDay d + 1) <= DayFromYear y)
      by (apply DayFromYear_mono; lia). lia.
  - assert (DayFromYear (y + 1) <= DayFromYear (YearFromDay d))
      by (apply DayFromYear_mono; lia). lia.
Qed.

Lemma DayWithinYear_bounds t :
  0 <= DayWithinYear t < DaysInYear (YearFromTime t).
Proof.
  unfold DayWithinYear, YearFromTime.
  pose proof (YearFromDay_spec (Day t)) as S.
  rewrite DayFromYear_succ in S. lia.
Qed.

Lemma InLeapYear_DaysInYear t : DaysInYear (YearFromTime t) = 365 + InLeapYear t.
Proof. unfold DaysInYear, InLeapYear. destruct (isLeap _); reflexivity. Qed.

Lemma InLeapYear_01 t : InLeapYear t = 0 \/ InLeapYear t = 1.
Proof. unfold InLeapYear. destruct (isLeap _); auto. Qed.

Ltac split_ifs :=
  repeat match goal with
  | |- context [if ?a <? ?b then _ else _] => destruct (Z.ltb_spec a b)
  | |- context [if ?a <=? ?b then _ else _] => destruct (Z.leb_spec a b)
  | |- context [if ?a =? ?b then _ else _] => destruct (Z.eqb_spec a b)
  end.

Lemma month_of_day leap d :
  (leap = 0 \/ leap = 1) -> 0 <= d < 365 + leap ->
  let m := monthOfDayWithinYear leap d in
  0 <= m <= 11 /\ monthStart leap m <= d < monthStart leap (m + 1).
Proof.
  intros Hl Hd.
  destruct Hl; subst leap; unfold monthOfDayWithinYear; simpl Z.add;
  split_ifs; cbv zeta; (split; [lia | vm_compute monthStart; lia]).
Qed.

Lemma MonthFromTime_bounds t : 0 <= MonthFromTime t <= 11.
Proof.
  unfold MonthFromTime.
  apply month_of_day; [apply InLeapYear_01|].
  rewrite <- InLeapYear_DaysInYear. apply DayWithinYear_bounds.
Qed.

Lemma MakeDay_roundtrip t :
  MakeDay (YearFromTime t) (MonthFromTime t) (DateFromTime t) = Day t.
Proof.
  pose proof (MonthFromTime_bounds t) as Hm.
  unfold MakeDay. cbv zeta.
  rewrite Z.div_small, Z.mod_small by lia.
  rewrite Z.add_0_r. fold (InLeapYear t).
  unfold DateFromTime, DayWithinYear. lia.
Qed.

Lemma MakeTime_roundtrip t :
  MakeTime (HourFromTime t) (MinFromTime t) (SecFromTime t) (msFromTime t)
  = TimeWithinDay t.
Proof.
  unfold MakeTime, HourFromTime, MinFromTime, SecFromTime, msFromTime, TimeWithinDay.
  unfold_ms. Z.div_mod_to_equations. lia.
Qed.

Lemma MakeDate_roundtrip t : MakeDate (Day t) (TimeWithinDay t) = t.
Proof.
  unfold MakeDate, Day, TimeWithinDay. unfold_ms.
  Z.div_mod_to_equations. lia.
Qed.

(** Taking a time value apart and putting it together again. *)
Lemma fields_roundtrip t :
  MakeDate (MakeDay (YearFromTime t) (MonthFromTime t) (DateFromTime t))
           (MakeTime (HourFromTime t) (MinFromTime t) (SecFromTime t) (msFromTime t))
  = t.
Proof. rewrite MakeDay_roundtrip, MakeTime_roundtrip. apply MakeDate_roundtrip. Qed.

End EcmaFacts.

Module NumFacts.

Lemma Qred_inject z : Qred (inject_Z z) = inject_Z z.
Proof.
  unfold inject_Z, Qred.
  pose proof (Z.ggcd_gcd z 1) as G. pose proof (Z.ggcd_correct_divisors z 1) as D.
  destruct (Z.ggcd z 1) as [g [a b]]. simpl in *.
  rewrite Z.gcd_1_r in G. subst g. destruct D as [D1 D2].
  assert (b = 1) by lia. subst b. simpl. f_equal. lia.
Qed.

Lemma Qred_eq (a : Q) (z : Z) : (a == inject_Z z)%Q -> Qred a = inject_Z z.
Proof. intros H. rewrite <- (Qred_inject z). apply Qred_complete, H. Qed.

Lemma trunc_inject z : Num.trunc (inject_Z z) = z.
Proof.
  unfold Num.trunc. simpl.
  destruct (z <? 0); [apply Qceiling_Z | apply Qfloor_Z].
Qed.

Lemma floor_inject z : Num.floor (inject_Z z) = z.
Proof. apply Qfloor_Z. Qed.

Lemma add_inject a b : Num.add (inject_Z a) (inject_Z b) = inject_Z (a + b).
Proof. apply Qred_eq. rewrite inject_Z_plus. reflexivity. Qed.

Lemma sub_inject a b : Num.sub (inject_Z a) (inject_Z b) = inject_Z (a - b).
Proof.
  apply Qred_eq. unfold Qminus. unfold Z.sub.
  rewrite inject_Z_plus, inject_Z_opp. reflexivity.
Qed.

Lemma isZero_inject z : Num.isZero (inject_Z z) = (z =? 0).
Proof. reflexivity. Qed.

Lemma ltb_inject a b : Num.ltb (inject_Z a) (inject_Z b) = (a <? b).
Proof.
  unfold Num.ltb, Qle_bool. simpl. rewrite !Z.mul_1_r.
  rewrite Z.ltb_antisym. reflexivity.
Qed.

End NumFacts.

Module LuxonFacts.
Import Ecma EcmaFacts Luxon NumFacts.

Lemma objToLocalTS_tsToObj t o :
  objToLocalTS (tsToObj t o) = t + o * 60 * 1000.
Proof.
  unfold objToLocalTS, tsToObj. simpl.
  replace (MonthFromTime (t + o * 60 * 1000) + 1 - 1)
    with (MonthFromTime (t + o * 60 * 1000)) by lia.
  apply fields_roundtrip.
Qed.

Lemma fixOffset_settled l o z :
  zoffset z (l - o * 60 * 1000) = o ->
  fixOffset l o z = (l - o * 60 * 1000, o).
Proof. intros H. unfold fixOffset. rewrite H, Z.eqb_refl. reflexivity. Qed.

Lemma millis_fromMillis t z : millis (fromMillis t z) = t.
Proof. apply trunc_inject. Qed.

Lemma isLeapYear_isLeap y : isLeapYear y = isLeap y.
Proof. reflexivity. Qed.

Lemma daysInMonth_normal y m :
  1 <= m <= 12 ->
  daysInMonth y m =
  if m =? 2 then (if isLeap y then 29 else 28)
  else nth (Z.to_nat (m - 1)) [31; 0; 31; 30; 31; 30; 31; 31; 30; 31; 30; 31] 0.
Proof.
  intros H. unfold daysInMonth. cbv zeta.
  rewrite (Z.mod_small (m - 1) 12) by lia.
  replace (m - 1 + 1) with m by lia.
  replace (m - m) with 0 by lia. change (0 / 12) with 0.
  rewrite Z.add_0_r. reflexivity.
Qed.

(** The months of the ECMA-262 table have the lengths Luxon gives them. *)
Lemma month_length y m :
  0 <= m <= 11 ->
  monthStart (if isLeap y then 1 else 0) (m + 1)
  = monthStart (if isLeap y then 1 else 0) m + daysInMonth y (m + 1).
Proof.
  intros H. rewrite daysInMonth_normal by lia.
  assert (C : m = 0 \/ m = 1 \/ m = 2 \/ m = 3 \/ m = 4 \/ m = 5 \/ m = 6 \/
              m = 7 \/ m = 8 \/ m = 9 \/ m = 10 \/ m = 11) by lia.
  repeat (destruct C as [C | C]; [subst m; destruct (isLeap y); reflexivity|]).
  subst m; destruct (isLeap y); reflexivity.
Qed.

(** The day of a date never exceeds the length of its month. *)
Lemma day_within_month t :
  1 <= DateFromTime t <= daysInMonth (YearFromTime t) (MonthFromTime t + 1).
Proof.
  pose proof (DayWithinYear_bounds t) as B.
  rewrite InLeapYear_DaysInYear in B.
  pose proof (month_of_day (InLeapYear t) (DayWithinYear t)
                (InLeapYear_01 t) B) as [Hm Hs].
  fold (MonthFromTime t) in Hm, Hs.
  pose proof (month_length (YearFromTime t) (MonthFromTime t) Hm) as L.
  fold (InLeapYear t) in L.
  unfold DateFromTime. lia.
Qed.

End LuxonFacts.

Module PlusFacts.
Import Ecma EcmaFacts Luxon NumFacts LuxonFacts Props.


Lemma contribution_ms d k :
  (contribution d Milliseconds k == getUnit d k * inject_Z (unitLength k))%Q.
Proof.
  destruct k; unfold contribution;
  cbn [unitEqb unitLength];
  try (change (matrix _ Milliseconds =? 0) with false; cbv iota;
       apply Qmult_comp; [reflexivity | reflexivity]).
  change (inject_Z 1) with 1%Q. ring.
Qed.

(** [as("milliseconds")] is the weighted sum of the nine fields. *)
Lemma as_milliseconds (d : Duration) (total : Z) :
  (d_years d * inject_Z (unitLength Years)
   + d_quarters d * inject_Z (unitLength Quarters)
   + d_months d * inject_Z (unitLength Months)
   + d_weeks d * inject_Z (unitLength Weeks)
   + d_days d * inject_Z (unitLength Days)
   + d_hours d * inject_Z (unitLength Hours)
   + d_minutes d * inject_Z (unitLength Minutes)
   + d_seconds d * inject_Z (unitLength Seconds)
   + d_milliseconds d * inject_Z (unitLength Milliseconds) == inject_Z total)%Q ->
  as_ d Milliseconds = inject_Z total.
Proof.
  intros H. unfold as_. apply Qred_eq. rewrite <- H.
  unfold orderedUnits, fold_left.
  rewrite !contribution_ms.
  cbn [getUnit]. ring.
Qed.


Lemma MakeDay_linear y m d n : MakeDay y m (d + n) = MakeDay y m d + n.
Proof. unfold MakeDay. lia. Qed.

Lemma frac_inject z : (frac (inject_Z z) == 0)%Q.
Proof. unfold frac. rewrite trunc_inject. ring. Qed.

Lemma day_within_month_obj t o :
  1 <= day (tsToObj t o)
    <= daysInMonth (year (tsToObj t o)) (month (tsToObj t o)).
Proof.
  unfold tsToObj. cbn [year month day]. apply day_within_month.
Qed.

(** Moving the day field of valid fields by [n] days. *)
Lemma objToLocalTS_shift_days (f : Obj) n :
  day f <= daysInMonth (year f) (month f) ->
  objToLocalTS
    {| year := year f + 0;
       month := month f + 0 + 0 * 3;
       day := Z.min (day f) (daysInMonth (year f + 0) (month f + 0 + 0 * 3)) + n;
       hour := hour f; minute := minute f; second := second f;
       millisecond := millisecond f |}
  = objToLocalTS f + n * msPerDay.
Proof.
  intros Hd. destruct f as [y m d h mi s ms].
  unfold objToLocalTS.
  cbn [year month day hour minute second millisecond] in *.
  replace (0 * 3) with 0 by reflexivity. rewrite !Z.add_0_r.
  rewrite Z.min_l by lia.
  rewrite MakeDay_linear.
  unfold MakeDate. lia.
Qed.

Lemma trunc_0 : Num.trunc 0 = 0.
Proof. reflexivity. Qed.

Lemma frac_0 : (frac 0 == 0)%Q.
Proof. reflexivity. Qed.

(** Adding whole weeks, days, hours, minutes, seconds and milliseconds:
    the days go through the calendar fields, the rest is added to the
    instant.  The zone must show the same offset after the days are added. *)
Lemma adjustTime_fixed z t w dd h mi s ms :
  zoffset z (t + (dd + w * 7) * msPerDay) = zoffset z t ->
  adjustTime (fromMillis t z)
    (mkDuration 0 0 0 (inject_Z w) (inject_Z dd) (inject_Z h) (inject_Z mi)
       (inject_Z s) (inject_Z ms))
  = inject_Z (t + (dd + w * 7) * msPerDay
              + h * 3600000 + mi * 60000 + s * 1000 + ms).
Proof.
  intros Hz. unfold adjustTime.
  cbn [d_years d_quarters d_months d_weeks d_days d_hours d_minutes
       d_seconds d_milliseconds].
  rewrite !trunc_inject, !trunc_0.
  unfold c, offset. rewrite millis_fromMillis.
  cbn [zone fromMillis].
  rewrite <- (Z.add_assoc (Z.min _ _) dd (w * 7)).
  rewrite (objToLocalTS_shift_days (tsToObj t (zoffset z t)) (dd + w * 7))
    by apply day_within_month_obj.
  rewrite objToLocalTS_tsToObj.
  rewrite fixOffset_settled.
  2:{ rewrite <- Hz. f_equal. lia. }
  cbn [fst].
  rewrite (as_milliseconds _ (h * 3600000 + mi * 60000 + s * 1000 + ms)).
  2:{ cbn [d_years d_quarters d_months d_weeks d_days d_hours d_minutes
           d_seconds d_milliseconds unitLength].
      rewrite !frac_inject, !frac_0.
      rewrite !inject_Z_plus, !inject_Z_mult. ring. }
  rewrite isZero_inject.
  destruct (Z.eqb_spec (h * 3600000 + mi * 60000 + s * 1000 + ms) 0) as [E | E].
  - f_equal. lia.
  - rewrite add_inject. f_equal. lia.
Qed.

End PlusFacts.

Module InverseFacts.
Import Ecma EcmaFacts Luxon NumFacts LuxonFacts PlusFacts Props.


Lemma fixedLength_isClockUnit u : isClockUnit u = true -> exists len, fixedLength u = Some len.
Proof. destruct u; intros H; try discriminate H; simpl; eauto. Qed.










End InverseFacts.

Module DecodeFacts.
Import Ecma EcmaFacts Luxon NumFacts LuxonFacts PlusFacts Props.

Lemma months_cases m :
  0 <= m <= 11 ->
  m = 0 \/ m = 1 \/ m = 2 \/ m = 3 \/ m = 4 \/ m = 5 \/ m = 6 \/
  m = 7 \/ m = 8 \/ m = 9 \/ m = 10 \/ m = 11.
Proof. lia. Qed.

Lemma monthStart_table leap :
  monthStart leap 0 = 0 /\ monthStart leap 1 = 31
  /\ monthStart leap 2 = 59 + leap /\ monthStart leap 3 = 90 + leap
  /\ monthStart leap 4 = 120 + leap /\ monthStart leap 5 = 151 + leap
  /\ monthStart leap 6 = 181 + leap /\ monthStart leap 7 = 212 + leap
  /\ monthStart leap 8 = 243 + leap /\ monthStart leap 9 = 273 + leap
  /\ monthStart leap 10 = 304 + leap /\ monthStart leap 11 = 334 + leap.
Proof. repeat split. Qed.

Lemma daysInMonth_daysIn y m : 1 <= m <= 12 -> daysInMonth y m = Iso.daysIn y m.
Proof.
  intros H. rewrite daysInMonth_normal by lia. unfold Iso.daysIn.
  assert (C : m = 1 \/ m = 2 \/ m = 3 \/ m = 4 \/ m = 5 \/ m = 6 \/ m = 7 \/
              m = 8 \/ m = 9 \/ m = 10 \/ m = 11 \/ m = 12) by lia.
  destruct C as [C | [C | [C | [C | [C | [C | [C | [C | [C | [C | [C | C]]]]]]]]]]];
  subst m; reflexivity.
Qed.

(** A day [d] of month [m] lies in month [m]. *)
Lemma month_of_monthStart leap m d y :
  leap = (if isLeap y then 1 else 0) ->
  0 <= m <= 11 -> 1 <= d <= daysInMonth y (m + 1) ->
  monthOfDayWithinYear leap (monthStart leap m + d - 1) = m
  /\ 0 <= monthStart leap m + d - 1 < 365 + leap.
Proof.
  intros Hl Hm Hd.
  rewrite daysInMonth_daysIn in Hd by lia. unfold Iso.daysIn in Hd.
  apply months_cases in Hm.
  destruct (monthStart_table leap)
    as (T0 & T1 & T2 & T3 & T4 & T5 & T6 & T7 & T8 & T9 & T10 & T11).
  assert (L01 : leap = 0 \/ leap = 1) by (destruct (isLeap y); lia).
  destruct (isLeap y);
  destruct Hm as [Hm | [Hm | [Hm | [Hm | [Hm | [Hm | [Hm | [Hm | [Hm |
                 [Hm | [Hm | Hm]]]]]]]]]]];
  subst m; cbn in Hd;
  match goal with
  | |- context [monthStart leap ?k + d - 1] =>
      match goal with
      | T : monthStart leap k = ?lo |- _ =>
          rewrite T; set (x := lo + d - 1);
          assert (Hx : x = lo + d - 1) by reflexivity; clearbody x
      end
  end;
  unfold monthOfDayWithinYear; (split; [split_ifs; lia | lia]).
Qed.

Lemma Day_MakeDate d tm : 0 <= tm < msPerDay -> Day (MakeDate d tm) = d.
Proof.
  intros H. unfold Day, MakeDate. unfold_ms. Z.div_mod_to_equations. lia.
Qed.

Lemma TimeWithinDay_MakeDate d tm :
  0 <= tm < msPerDay -> TimeWithinDay (MakeDate d tm) = tm.
Proof.
  intros H. unfold TimeWithinDay, MakeDate. unfold_ms.
  Z.div_mod_to_equations. lia.
Qed.

Lemma MakeTime_bounds h mi s ms :
  0 <= h <= 23 -> 0 <= mi <= 59 -> 0 <= s <= 59 -> 0 <= ms <= 999 ->
  0 <= MakeTime h mi s ms < msPerDay.
Proof. intros. unfold MakeTime. unfold_ms. lia. Qed.

Lemma clock_of_MakeDate d h mi s ms :
  0 <= h <= 23 -> 0 <= mi <= 59 -> 0 <= s <= 59 -> 0 <= ms <= 999 ->
  let t := MakeDate d (MakeTime h mi s ms) in
  HourFromTime t = h /\ MinFromTime t = mi /\ SecFromTime t = s
  /\ msFromTime t = ms.
Proof.
  intros. subst t.
  unfold HourFromTime, MinFromTime, SecFromTime, msFromTime, MakeDate, MakeTime.
  unfold_ms. repeat split; Z.div_mod_to_equations; lia.
Qed.

(** The fields of the time value built from valid fields are those fields. *)
Lemma date_of_MakeDay y m d tm :
  0 <= m <= 11 -> 1 <= d <= daysInMonth y (m + 1) -> 0 <= tm < msPerDay ->
  let t := MakeDate (MakeDay y m d) tm in
  YearFromTime t = y /\ MonthFromTime t = m /\ DateFromTime t = d.
Proof.
  intros Hm Hd Htm t.
  set (leap := if isLeap y then 1 else 0).
  destruct (month_of_monthStart leap m d y eq_refl Hm Hd) as [Hmo Hb].
  assert (HD : Day t = DayFromYear y + (monthStart leap m + d - 1)).
  { unfold t. rewrite Day_MakeDate by exact Htm. unfold MakeDay. cbv zeta.
    rewrite Z.div_small, Z.mod_small by lia. rewrite Z.add_0_r.
    fold leap. lia. }
  assert (HY : YearFromTime t = y).
  { unfold YearFromTime. rewrite HD. apply YearFromDay_unique.
    rewrite DayFromYear_succ. unfold DaysInYear. fold leap.
    destruct (isLeap y); subst leap; lia. }
  assert (HL : InLeapYear t = leap).
  { unfold InLeapYear. rewrite HY. reflexivity. }
  assert (HW : DayWithinYear t = monthStart leap m + d - 1).
  { unfold DayWithinYear. rewrite HY, HD. lia. }
  split; [exact HY|].
  assert (HM : MonthFromTime t = m).
  { unfold MonthFromTime. rewrite HL, HW. exact Hmo. }
  split; [exact HM|].
  unfold DateFromTime. rewrite HM, HL, HW. lia.
Qed.

Lemma tsToObj_objToLocalTS (o : Obj) :
  validObj o -> tsToObj (objToLocalTS o) 0 = o.
Proof.
  destruct o as [y m d h mi s ms]. unfold validObj.
  cbn [year month day hour minute second millisecond].
  intros (Hm & Hd & Hh & Hmi & Hs & Hms).
  unfold tsToObj, objToLocalTS.
  cbn [year month day hour minute second millisecond].
  replace (MakeDate (MakeDay y (m - 1) d) (MakeTime h mi s ms) + 0 * 60 * 1000)
    with (MakeDate (MakeDay y (m - 1) d) (MakeTime h mi s ms)) by lia.
  pose proof (MakeTime_bounds h mi s ms Hh Hmi Hs Hms) as Hb.
  assert (Hd' : 1 <= d <= daysInMonth y (m - 1 + 1))
    by (replace (m - 1 + 1) with m by lia; exact Hd).
  destruct (date_of_MakeDay y (m - 1) d (MakeTime h mi s ms)
              ltac:(lia) Hd' Hb) as (HY & HM & HDt).
  destruct (clock_of_MakeDate (MakeDay y (m - 1) d) h mi s ms Hh Hmi Hs Hms)
    as (H1 & H2 & H3 & H4).
  rewrite HY, HM, HDt, H1, H2, H3, H4. f_equal. lia.
Qed.

End DecodeFacts.

Module ClampFacts.
Import Ecma EcmaFacts Luxon NumFacts LuxonFacts PlusFacts InverseFacts DecodeFacts Props.

Lemma clock_bounds t :
  0 <= HourFromTime t <= 23 /\ 0 <= MinFromTime t <= 59
  /\ 0 <= SecFromTime t <= 59 /\ 0 <= msFromTime t <= 999.
Proof.
  unfold HourFromTime, MinFromTime, SecFromTime, msFromTime. unfold_ms.
  repeat split; Z.div_mod_to_equations; lia.
Qed.

Lemma daysInMonth_lower y m : 1 <= m <= 12 -> 28 <= daysInMonth y m <= 31.
Proof.
  intros H. rewrite daysInMonth_daysIn by lia. unfold Iso.daysIn.
  destruct (m =? 2); [destruct (isLeap y); lia|].
  destruct ((m =? 4) || (m =? 6) || (m =? 9) || (m =? 11)); lia.
Qed.

(** [daysInMonth] and [MakeDay] carry a month outside 1..12 into the year
    in the same way. *)
Lemma daysInMonth_carry y m :
  daysInMonth y m = daysInMonth (y + (m - 1) / 12) ((m - 1) mod 12 + 1).
Proof.
  pose proof (Z.mod_pos_bound (m - 1) 12 ltac:(lia)) as B.
  rewrite (daysInMonth_normal (y + (m - 1) / 12)) by lia.
  unfold daysInMonth. cbv zeta.
  replace ((m - 1) mod 12 + 1 - 1) with ((m - 1) mod 12) by lia.
  replace ((m - ((m - 1) mod 12 + 1)) / 12) with ((m - 1) / 12)
    by (Z.div_mod_to_equations; lia).
  reflexivity.
Qed.

Lemma MakeDay_carry y m d :
  MakeDay y m d = MakeDay (y + m / 12) (m mod 12) d.
Proof.
  pose proof (Z.mod_pos_bound m 12 ltac:(lia)) as B.
  unfold MakeDay. cbv zeta.
  rewrite (Z.div_small (m mod 12) 12), (Z.mod_small (m mod 12) 12) by lia.
  rewrite Z.add_0_r. reflexivity.
Qed.

Lemma moved_valid t o ny nm : validObj (moved (tsToObj t o) ny nm).
Proof.
  pose proof (day_within_month_obj t o) as Hd.
  pose proof (clock_bounds (t + o * 60 * 1000)) as (Hh & Hmi & Hs & Hms).
  unfold moved, validObj.
  cbn [year month day hour minute second millisecond].
  set (f := tsToObj t o) in *.
  pose proof (Z.mod_pos_bound (month f + nm - 1) 12 ltac:(lia)) as B.
  pose proof (daysInMonth_lower (year f + ny + (month f + nm - 1) / 12)
                ((month f + nm - 1) mod 12 + 1) ltac:(lia)) as L.
  split; [lia|]. split; [lia|].
  unfold f, tsToObj. cbn [hour minute second millisecond].
  repeat split; lia.
Qed.

Lemma objToLocalTS_moved (f : Obj) ny nm :
  objToLocalTS
    {| year := year f + ny;
       month := month f + nm + 0 * 3;
       day := Z.min (day f) (daysInMonth (year f + ny) (month f + nm + 0 * 3))
              + 0 + 0 * 7;
       hour := hour f; minute := minute f; second := second f;
       millisecond := millisecond f |}
  = objToLocalTS (moved f ny nm).
Proof.
  unfold objToLocalTS, moved.
  cbn [year month day hour minute second millisecond].
  replace (0 * 3) with 0 by reflexivity.
  replace (0 * 7) with 0 by reflexivity. rewrite !Z.add_0_r.
  rewrite (daysInMonth_carry (year f + ny) (month f + nm)).
  rewrite (MakeDay_carry (year f + ny) (month f + nm - 1)).
  replace ((month f + nm - 1) mod 12 + 1 - 1) with ((month f + nm - 1) mod 12)
    by lia.
  pose proof (Z.mod_pos_bound (month f + nm - 1) 12 ltac:(lia)) as B.
  rewrite (MakeDay_carry (year f + ny + (month f + nm - 1) / 12)
             ((month f + nm - 1) mod 12)).
  rewrite (Z.div_small ((month f + nm - 1) mod 12) 12),
          (Z.mod_small ((month f + nm - 1) mod 12) 12) by lia.
  rewrite Z.add_0_r. reflexivity.
Qed.

(** Whole years and months in a zone that keeps its offset. *)
Lemma plus_calendar z t ny nm :
  constantOffset z ->
  let dt := plus (fromMillis t z)
              (mkDuration (inject_Z ny) 0 (inject_Z nm) 0 0 0 0 0 0) in
  c dt = moved (c (fromMillis t z)) ny nm.
Proof.
  intros Hz dt. subst dt. unfold plus, adjustTime.
  cbn [d_years d_quarters d_months d_weeks d_days d_hours d_minutes
       d_seconds d_milliseconds].
  rewrite !trunc_inject, !trunc_0.
  change (zone (fromMillis t z)) with z.
  assert (Hc : c (fromMillis t z) = tsToObj t (zoffset z t)).
  { unfold c, offset. rewrite millis_fromMillis. reflexivity. }
  assert (Ho : offset (fromMillis t z) = zoffset z t).
  { unfold offset. rewrite millis_fromMillis. reflexivity. }
  rewrite Hc, Ho.
  set (f := tsToObj t (zoffset z t)).
  rewrite (objToLocalTS_moved f ny nm).
  rewrite fixOffset_settled by apply Hz.
  cbn [fst].
  rewrite (as_milliseconds _ 0).
  2:{ cbn [d_years d_quarters d_months d_weeks d_days d_hours d_minutes
           d_seconds d_milliseconds unitLength].
      rewrite !frac_inject, !frac_0. ring. }
  change (Num.isZero (inject_Z 0)) with true. cbv iota.
  unfold c, offset, millis. cbn [zone ts]. rewrite trunc_inject.
  set (l := objToLocalTS (moved f ny nm)).
  rewrite (Hz (l - zoffset z t * 60 * 1000) t).
  replace (tsToObj (l - zoffset z t * 60 * 1000) (zoffset z t))
    with (tsToObj l 0).
  2:{ unfold tsToObj.
      replace (l - zoffset z t * 60 * 1000 + zoffset z t * 60 * 1000)
        with (l + 0 * 60 * 1000) by lia.
      reflexivity. }
  apply tsToObj_objToLocalTS. apply moved_valid.
Qed.

End ClampFacts.

Module WeekdayFacts.
Import Ecma EcmaFacts Luxon.


Lemma WeekDay_bounds t : 0 <= WeekDay t <= 6.
Proof. unfold WeekDay. pose proof (Z.mod_pos_bound (Day t + 4) 7). lia. Qed.


End WeekdayFacts.


Module CalendarUnitFacts.
Import Ecma EcmaFacts Luxon NumFacts LuxonFacts PlusFacts InverseFacts DecodeFacts ClampFacts Props.
Local Open Scope string_scope.
Local Open Scope Z_scope.

(** [addDuration] with whole months or years, in a zone that keeps its
    offset: the fields of the result are the moved fields of the start. *)
Lemma addDuration_months z t n :
  constantOffset z ->
  c (LuxonImpl.addDuration (fromMillis t z) (inject_Z n) LuxonImpl.months)
  = moved (c (fromMillis t z)) 0 n.
Proof.
  intros Hz. unfold LuxonImpl.addDuration, durationOf.
  rewrite Qred_inject.
  cbn [LuxonImpl.unitKey setUnit zeroDuration d_years d_quarters d_months
       d_weeks d_days d_hours d_minutes d_seconds d_milliseconds].
  exact (plus_calendar z t 0 n Hz).
Qed.


(** The second implementation clamps: after adding [n] months the day is
    the day of the start, or the last day of the target month when the
    start's day does not exist there. *)
Lemma luxon_clamps_to_last_day z t n :
  constantOffset z ->
  let start := c (fromMillis t z) in
  let result := c (LuxonImpl.addDuration (fromMillis t z) (inject_Z n)
                     LuxonImpl.months) in
  let last := daysInMonth (year result) (month result) in
  1 <= month result <= 12
  /\ (month start + n - month result) mod 12 = 0
  /\ year result * 12 + month result = year start * 12 + month start + n
  /\ (last < day start -> day result = last)
  /\ (day start <= last -> day result = day start)
  /\ hour result = hour start /\ minute result = minute start
  /\ second result = second start /\ millisecond result = millisecond start.
Proof.
  intros Hz start result last. subst result last.
  rewrite (addDuration_months z t n Hz). fold start.
  unfold moved. cbn [year month day hour minute second millisecond].
  pose proof (Z.mod_pos_bound (month start + n - 1) 12 ltac:(lia)) as B.
  pose proof (Z.div_mod (month start + n - 1) 12 ltac:(lia)) as D.
  split; [lia|]. split.
  { replace (month start + n - ((month start + n - 1) mod 12 + 1))
      with (12 * ((month start + n - 1) / 12)) by lia.
    rewrite Z.mul_comm. apply Z.mod_mul. lia. }
  split; [lia|].
  split; [intros H; apply Z.min_r; lia|].
  split; [intros H; apply Z.min_l; lia|].
  repeat split.
Qed.

End CalendarUnitFacts.

Module ParseFacts.
Import Ecma EcmaFacts Luxon NumFacts LuxonFacts PlusFacts InverseFacts DecodeFacts ClampFacts Props.
Local Open Scope string_scope.
Local Open Scope Z_scope.

Lemma objToLocalTS_literal l : objToLocalTS (literalObj l) = Iso.localMillis l.
Proof. reflexivity. Qed.


Lemma utcZone_constant : constantOffset utcZone.
Proof. intros a b. reflexivity. Qed.

(** Reading valid fields in a zone that keeps its offset [o], from any
    guess [g]: the instant is the local reading less [o]. *)
Lemma fixOffset_constant l g z :
  constantOffset z ->
  fst (fixOffset l g z) = l - zoffset z 0 * 60 * 1000.
Proof.
  intros Hz. unfold fixOffset.
  rewrite (Hz (l - g * 60 * 1000) 0).
  destruct (Z.eqb_spec g (zoffset z 0)) as [E | E].
  - subst g. reflexivity.
  - rewrite (Hz (l - g * 60 * 1000 - (zoffset z 0 - g) * 60 * 1000) 0).
    rewrite Z.eqb_refl. cbn [fst]. lia.
Qed.



Lemma validFields_validObj l :
  Iso.validFields l = true -> Iso.t_hour (Iso.timeOrMidnight l) <= 23 ->
  validObj (literalObj l).
Proof.
  unfold Iso.validFields, Iso.validTime, validObj, literalObj.
  cbn [year month day hour minute second millisecond].
  intros H Hh.
  rewrite !andb_true_iff, orb_true_iff, !andb_true_iff, !Z.leb_le in H.
  destruct H as [[[[H1 H2] H3] H4] H5].
  rewrite daysInMonth_daysIn by lia.
  destruct H5 as [H5 | H5].
  - lia.
  - rewrite !Z.eqb_eq in H5. lia.
Qed.

(** A literal without offset, read with a fallback zone that keeps its
    offset: the result is in that zone and its wall clock there is the
    reading of the literal. *)
Lemma parse_without_offset tzdb defaultZone other tsNow s name z l :
  LuxonImpl.hasTimezone s = false ->
  Iso.parse s = Some l -> Iso.validFields l = true ->
  Iso.t_hour (Iso.timeOrMidnight l) <= 23 ->
  Iso.l_offset l = None ->
  name <> "" -> normalizeZone tzdb defaultZone name = Some z ->
  constantOffset z -> (zoneEquals z utcZone = true -> z = utcZone) ->
  exists dt,
    LuxonImpl.parseDateWithTimezone tzdb defaultZone other tsNow s (Some name) = Some dt
    /\ zone dt = z
    /\ c dt = literalObj l
    /\ ts dt = inject_Z (Iso.localMillis l - zoffset z 0 * 60 * 1000).
Proof.
  intros Hh Hp Hv Hhour Ho Hn Hz Hc Hid.
  unfold LuxonImpl.parseDateWithTimezone. rewrite Hh.
  destruct (String.eqb_spec name "") as [E | _]; [contradiction|].
  unfold fromISO. rewrite Hp, Hv, Ho.
  unfold setZoneNamed. rewrite Hz.
  pose proof (validFields_validObj l Hv Hhour) as Hvalid.
  fold (literalObj l).
  set (u := mkDateTime
              (inject_Z (fst (objToTS (literalObj l) (zoffset utcZone tsNow) utcZone)))
              utcZone).
  assert (Hu : setZone u utcZone false = u) by reflexivity.
  rewrite Hu.
  assert (Hts : ts u = inject_Z (Iso.localMillis l)).
  { unfold u, objToTS. cbn [ts]. rewrite objToLocalTS_literal.
    rewrite (fixOffset_constant _ _ utcZone utcZone_constant).
    cbn [zoffset utcZone]. f_equal. lia. }
  assert (Hcu : c u = literalObj l).
  { unfold c, offset, millis. rewrite Hts, trunc_inject.
    cbn [zone u zoffset utcZone].
    rewrite <- objToLocalTS_literal.
    apply tsToObj_objToLocalTS. exact Hvalid. }
  unfold setZone.
  destruct (zoneEquals z (zone u)) eqn:Eq.
  - (* the fallback is the UTC zone itself *)
    rewrite (Hid Eq).
    eexists. split; [reflexivity|].
    split; [reflexivity|]. split; [exact Hcu|].
    rewrite Hts. cbn [zoffset utcZone]. f_equal. lia.
  - eexists. split; [reflexivity|].
    cbn [zone ts]. split; [reflexivity|].
    rewrite Hcu. unfold objToTS.
    rewrite (fixOffset_constant _ _ z Hc).
    split; [|reflexivity].
    unfold c, offset, millis. cbn [zone ts]. rewrite trunc_inject.
    set (lo := objToLocalTS (literalObj l)).
    rewrite (Hc (lo - zoffset z 0 * 60 * 1000) 0).
    replace (tsToObj (lo - zoffset z 0 * 60 * 1000) (zoffset z 0))
      with (tsToObj lo 0).
    2:{ unfold tsToObj.
        replace (lo - zoffset z 0 * 60 * 1000 + zoffset z 0 * 60 * 1000)
          with (lo + 0 * 60 * 1000) by lia.
        reflexivity. }
    apply tsToObj_objToLocalTS. exact Hvalid.
Qed.

End ParseFacts.

Module FractionFacts.
Import Ecma EcmaFacts Luxon NumFacts LuxonFacts PlusFacts InverseFacts DecodeFacts ClampFacts Props.
Local Open Scope string_scope.
Local Open Scope Z_scope.





End FractionFacts.

Module PrintFacts.
Import Ecma EcmaFacts Luxon NumFacts LuxonFacts PlusFacts InverseFacts DecodeFacts ClampFacts Props.
Import Show Iso ParseFacts.
Local Open Scope string_scope.
Local Open Scope Z_scope.

Lemma app_assoc (a b c0 : string) : (a ++ b) ++ c0 = a ++ (b ++ c0).
Proof. induction a as [|x a IH]; simpl; [reflexivity | rewrite IH; reflexivity]. Qed.

Lemma digits_cases k :
  0 <= k <= 9 ->
  k = 0 \/ k = 1 \/ k = 2 \/ k = 3 \/ k = 4 \/ k = 5 \/ k = 6 \/ k = 7 \/
  k = 8 \/ k = 9.
Proof. lia. Qed.

Lemma digitChar_ok k :
  0 <= k <= 9 -> isDigit (digitChar k) = true /\ digitVal (digitChar k) = k.
Proof.
  intros H. apply digits_cases in H.
  destruct H as [H | [H | [H | [H | [H | [H | [H | [H | [H | H]]]]]]]]];
  subst k; split; reflexivity.
Qed.

Lemma pad2 n : pad 2 n =
  String (digitChar ((n / 10) mod 10)) (String (digitChar (n mod 10)) "").
Proof. reflexivity. Qed.

Lemma pad3 n : pad 3 n =
  String (digitChar ((n / 10 / 10) mod 10))
    (String (digitChar ((n / 10) mod 10)) (String (digitChar (n mod 10)) "")).
Proof. reflexivity. Qed.

Lemma pad4 n : pad 4 n =
  String (digitChar ((n / 10 / 10 / 10) mod 10))
    (String (digitChar ((n / 10 / 10) mod 10))
       (String (digitChar ((n / 10) mod 10)) (String (digitChar (n mod 10)) ""))).
Proof. reflexivity. Qed.

Lemma mod10_digit k : 0 <= k mod 10 <= 9.
Proof. pose proof (Z.mod_pos_bound k 10). lia. Qed.

Lemma digits2_pad n rest :
  0 <= n < 100 -> digits 2 0 (pad 2 n ++ rest) = Some (n, rest).
Proof.
  intros H. rewrite pad2. cbn [append digits].
  destruct (digitChar_ok ((n / 10) mod 10)) as [A1 B1];
    [apply mod10_digit|].
  destruct (digitChar_ok (n mod 10)) as [A0 B0];
    [apply mod10_digit|].
  rewrite A1, A0, B1, B0. do 2 f_equal.
  Z.div_mod_to_equations. lia.
Qed.

Lemma digits4_pad n rest :
  0 <= n < 10000 -> digits 4 0 (pad 4 n ++ rest) = Some (n, rest).
Proof.
  intros H. rewrite pad4. cbn [append digits].
  destruct (digitChar_ok ((n / 10 / 10 / 10) mod 10)) as [A3 B3];
    [apply mod10_digit|].
  destruct (digitChar_ok ((n / 10 / 10) mod 10)) as [A2 B2];
    [apply mod10_digit|].
  destruct (digitChar_ok ((n / 10) mod 10)) as [A1 B1];
    [apply mod10_digit|].
  destruct (digitChar_ok (n mod 10)) as [A0 B0];
    [apply mod10_digit|].
  rewrite A3, A2, A1, A0, B3, B2, B1, B0. do 2 f_equal.
  Z.div_mod_to_equations. lia.
Qed.

Lemma fraction_stop pos acc count rest :
  stops rest -> fraction pos acc count rest = (acc, count, rest).
Proof.
  intros H. destruct rest as [|ch rest]; [destruct pos; reflexivity|].
  simpl in H. destruct pos; simpl; rewrite H; reflexivity.
Qed.

Lemma fraction3_pad n rest :
  0 <= n < 1000 -> stops rest ->
  parseFraction (String "."%char (pad 3 n ++ rest)) = Some (n, 3%nat, rest).
Proof.
  intros H Hs. rewrite pad3. cbn [append parseFraction].
  destruct (digitChar_ok ((n / 10 / 10) mod 10)) as [A2 B2];
    [apply mod10_digit|].
  destruct (digitChar_ok ((n / 10) mod 10)) as [A1 B1];
    [apply mod10_digit|].
  destruct (digitChar_ok (n mod 10)) as [A0 B0];
    [apply mod10_digit|].
  rewrite A2. cbn [fraction]. rewrite A2, A1, A0, B2, B1, B0.
  rewrite fraction_stop by exact Hs.
  do 3 f_equal. cbn [Z.of_nat Pos.of_succ_nat Pos.succ].
  change (10 ^ 2) with 100. change (10 ^ 1) with 10. change (10 ^ 0) with 1.
  Z.div_mod_to_equations. lia.
Qed.






(** Reading a printed date and time. *)
Lemma parse_printed y m d h mi s ms offText off :
  0 <= y < 10000 -> 0 <= m < 100 -> 0 <= d < 100 -> 0 <= h < 100 ->
  0 <= mi < 100 -> 0 <= s < 100 -> 0 <= ms < 1000 ->
  stops offText -> parseOffset offText = Some off ->
  Iso.parse (pad 4 y ++ "-" ++ pad 2 m ++ "-" ++ pad 2 d ++ "T" ++
             pad 2 h ++ ":" ++ pad 2 mi ++ ":" ++ pad 2 s ++ "." ++
             pad 3 ms ++ offText)
  = Some (mkLiteral y m d (Some (mkTime h mi s ms)) (mkShape true 3) off).
Proof.
  intros Hy Hm Hd Hh Hmi Hs Hms Hstop Hoff.
  unfold Iso.parse, parseDate.
  rewrite digits4_pad by exact Hy. cbn [append expect Ascii.eqb Bool.eqb].
  rewrite digits2_pad by exact Hm. cbn [append expect Ascii.eqb Bool.eqb].
  rewrite digits2_pad by exact Hd. cbn [append].
  unfold parseTime.
  rewrite digits2_pad by exact Hh. cbn [append].
  rewrite digits2_pad by exact Hmi.
  unfold parseSeconds. cbn [append].
  rewrite digits2_pad by exact Hs. cbn [append].
  rewrite (fraction3_pad ms offText Hms Hstop).
  rewrite Hoff. reflexivity.
Qed.



End PrintFacts.

(** * The claims *)

Import Ecma EcmaFacts Luxon NumFacts LuxonFacts PlusFacts InverseFacts DecodeFacts ClampFacts Props.
Open Scope string_scope.
Open Scope Z_scope.

(** ** C1: months and years of a difference *)

(** C1 (code bug).  The first implementation does not count calendar
    months or years: the [months] and [years] of its [get_time_difference]
    are the elapsed milliseconds divided by 30 days and by 365 days, for
    every target and every clock.  From 2025-02-01 to 2025-03-01, one whole
    calendar month, it reports 0 months; from 2024-01-01 to 2024-12-31,
    short of a year, it reports 1 year. *)
Theorem C1_months_years_by_fixed_divisor :
  (forall host legacy target_date now,
     match DateImpl.dateParse host legacy target_date with
     | Some target =>
         exists r,
           DateImpl.get_time_difference host legacy target_date DateImpl.d_all now
           = inl r
           /\ DateImpl.field "months" (DateImpl.f_difference r)
              = Some (Z.abs (now - target) / (30 * 86400000))
           /\ DateImpl.field "years" (DateImpl.f_difference r)
              = Some (Z.abs (now - target) / (365 * 86400000))
     | None => True
     end)
  /\ (forall host legacy,
      exists r,
        DateImpl.get_time_difference host legacy "2025-02-01T00:00:00Z"
          DateImpl.d_all 1740787200000 = inl r
        /\ DateImpl.f_current_date r = "2025-03-01T00:00:00.000Z"
        /\ DateImpl.field "months" (DateImpl.f_difference r) = Some 0
        /\ Spec.wholeMonths 1740787200000 1738368000000 = 1)
  /\ (forall host legacy,
      exists r,
        DateImpl.get_time_difference host legacy "2024-01-01T00:00:00Z"
          DateImpl.d_all 1735603200000 = inl r
        /\ DateImpl.f_current_date r = "2024-12-31T00:00:00.000Z"
        /\ DateImpl.field "years" (DateImpl.f_difference r) = Some 1
        /\ Spec.wholeYears 1735603200000 1704067200000 = 0).
Proof.
  split; [|split].
  - intros host legacy target_date now.
    unfold DateImpl.get_time_difference.
    destruct (DateImpl.dateParse host legacy target_date) as [target|];
      [|exact I].
    eexists. split; [reflexivity|].
    cbn [DateImpl.f_difference DateImpl.selectUnit].
    split; reflexivity.
  - intros. eexists. split; [reflexivity|]. vm_compute. repeat split.
  - intros. eexists. split; [reflexivity|]. vm_compute. repeat split.
Qed.

(** The second implementation subtracts calendar fields, but [as("months")]
    then folds the remaining days back in at 30 days a month: from 1 to 31
    January 2025 it reports one month. *)
Example luxon_months_of_thirty_days :
  toISO (fromMillis 1738281600000 utcZone) = "2025-01-31T00:00:00.000Z"
  /\ toISO (fromMillis 1735689600000 utcZone) = "2025-01-01T00:00:00.000Z"
  /\ LuxonImpl.field "months"
       (LuxonImpl.calculateDifference (fromMillis 1738281600000 utcZone)
          (fromMillis 1735689600000 utcZone)) = Some 1%Q
  /\ Spec.wholeMonths 1738281600000 1735689600000 = 0.
Proof. vm_compute. repeat split. Qed.

(** ** C2: the day of the month after adding months or years *)

(** C2 (code bug).  The first implementation does not clamp: [setMonth]
    keeps day 31 and lets it run over the end of February, so that one
    month after 2024-01-31T00:00:00Z is 2024-03-02T00:00:00Z and not
    2024-02-29T00:00:00Z, on a host in UTC as on one in Tokyo. *)
Theorem C2_date_impl_month_overflow :
  forall intl nts legacy locale now now1 now2,
  DateImpl.toISOString 1709164800000 = "2024-02-29T00:00:00.000Z"
  /\ (exists r,
        DateImpl.calculate_date (DateImpl.fixedHost 0) intl nts legacy 1
          DateImpl.months (Some "2024-01-31T00:00:00Z") locale now now1 now2
        = inl r
        /\ DateImpl.s_iso (DateImpl.r_result r) = "2024-03-02T00:00:00.000Z"
        /\ DateImpl.s_milliseconds (DateImpl.r_result r) = 1709337600000)
  /\ (exists r,
        DateImpl.calculate_date (DateImpl.fixedHost 540) intl nts legacy 1
          DateImpl.months (Some "2024-01-31T00:00:00Z") locale now now1 now2
        = inl r
        /\ DateImpl.s_iso (DateImpl.r_result r) = "2024-03-02T00:00:00.000Z").
Proof.
  intros. split; [reflexivity|].
  split; eexists; (split; [reflexivity|]); vm_compute; repeat split.
Qed.

(** The second implementation gives the two results of the claim. *)
Example luxon_month_and_year_examples :
  forall other intl nts locale now now2,
  (exists r v,
     LuxonImpl.calculate_date Tz.tzdb utcZone other intl relFormatEn nts "UTC" 1
       LuxonImpl.months (Some "2024-01-31T00:00:00Z") None None locale now now2
     = inl r
     /\ LuxonImpl.r_view r = Some v
     /\ LuxonImpl.s_iso (LuxonImpl.v_info v) = "2024-02-29T00:00:00.000Z")
  /\ (exists r v,
     LuxonImpl.calculate_date Tz.tzdb utcZone other intl relFormatEn nts "UTC" 1
       LuxonImpl.years (Some "2024-01-31T00:00:00Z") None None locale now now2
     = inl r
     /\ LuxonImpl.r_view r = Some v
     /\ LuxonImpl.s_iso (LuxonImpl.v_info v) = "2025-01-31T00:00:00.000Z").
Proof.
  intros. split; do 2 eexists; (split; [reflexivity|]); split; reflexivity.
Qed.

(** ** C3: offsets and the fallback zone *)

(** C3 (code bug).  An offset written without a colon, [+hh] or [+hhmm],
    is an explicit offset that Luxon reads, but the pattern of
    [parseDateWithTimezone] does not see it; the literal is then treated as
    a wall-clock reading of the fallback zone.  ["2025-01-01T10:00:00+09"]
    and ["2025-01-01T10:00:00+0900"] denote 2025-01-01T01:00:00Z; with the
    fallback zone Asia/Tokyo the parser returns 2024-12-31T16:00:00Z for
    both, with Etc/UTC the instant denoted. *)
Theorem C3_offset_without_colon_takes_fallback :
  forall defaultZone other tsNow,
  let parse := LuxonImpl.parseDateWithTimezone Tz.tzdb defaultZone other tsNow in
  let denoted s :=
    match Iso.parse s with Some l => Iso.denoted l | None => None end in
  let s := "2025-01-01T10:00:00+09" in
  let s' := "2025-01-01T10:00:00+0900" in
  LuxonImpl.hasTimezone s = false
  /\ option_map Iso.l_offset (Iso.parse s) = Some (Some (Iso.OffHour false 9))
  /\ denoted s = Some 1735693200000
  /\ option_map ts (parse s (Some "Asia/Tokyo")) = Some (inject_Z 1735660800000)
  /\ option_map ts (parse s (Some "Etc/UTC")) = Some (inject_Z 1735693200000)
  /\ LuxonImpl.hasTimezone s' = false
  /\ option_map Iso.l_offset (Iso.parse s') = Some (Some (Iso.OffBasic false 9 0))
  /\ denoted s' = Some 1735693200000
  /\ option_map ts (parse s' (Some "Asia/Tokyo")) = Some (inject_Z 1735660800000)
  /\ option_map ts (parse s' (Some "Etc/UTC")) = Some (inject_Z 1735693200000)
  /\ DateImpl.toISOString 1735693200000 = "2025-01-01T01:00:00.000Z"
  /\ DateImpl.toISOString 1735660800000 = "2024-12-31T16:00:00.000Z".
Proof.
  intros. repeat split; reflexivity.
Qed.

(** What holds of the parser: an offset the pattern finds ([+hh:mm] or a
    final [Z]) makes the fallback zone irrelevant. *)
Lemma detected_offset_ignores_fallback tzdb defaultZone other tsNow s fb1 fb2 :
  LuxonImpl.hasTimezone s = true ->
  LuxonImpl.parseDateWithTimezone tzdb defaultZone other tsNow s fb1
  = LuxonImpl.parseDateWithTimezone tzdb defaultZone other tsNow s fb2.
Proof.
  intros H. unfold LuxonImpl.parseDateWithTimezone. rewrite H. reflexivity.
Qed.

(** A literal without offset is read as the wall clock of the fallback
    zone, also across a change of offset: noon of 1 July 2025 in New York
    is 16:00 UTC. *)
Example wall_clock_in_new_york :
  forall defaultZone other tsNow,
  option_map toISO
    (LuxonImpl.parseDateWithTimezone Tz.tzdb defaultZone other tsNow
       "2025-07-01T12:00:00" (Some "America/New_York"))
  = Some "2025-07-01T12:00:00.000-04:00"
  /\ option_map ts
       (LuxonImpl.parseDateWithTimezone Tz.tzdb defaultZone other tsNow
          "2025-07-01T12:00:00" (Some "America/New_York"))
     = Some (inject_Z 1751385600000)
  /\ DateImpl.toISOString 1751385600000 = "2025-07-01T16:00:00.000Z".
Proof. intros. repeat split; vm_compute; reflexivity. Qed.

(** ** C4: amounts that are not integers *)



(** The first implementation accepts the amount as well and drops its
    fraction: 1.5 hours after midnight is 01:00. *)
Example date_impl_truncates_amount :
  forall intl nts legacy locale now now1 now2,
  exists r,
    DateImpl.calculate_date (DateImpl.fixedHost 0) intl nts legacy (3 # 2)
      DateImpl.hours (Some "2025-01-01T00:00:00Z") locale now now1 now2
    = inl r
    /\ DateImpl.s_iso (DateImpl.r_result r) = "2025-01-01T01:00:00.000Z".
Proof. intros. eexists. split; [reflexivity|]. vm_compute. reflexivity. Qed.

(** ** C5: seven days ago *)

(** C5, the claim refuted: with the reference 2025-01-01T00:00:00Z and the
    clock at 2025-01-08T00:00:00Z, the first implementation does not
    answer "7 days ago". *)
Lemma C5_date_impl_says_one_week :
  ~ (exists r,
       DateImpl.get_time_difference (DateImpl.fixedHost 0) Tz.noLegacy
         "2025-01-01T00:00:00Z" DateImpl.d_all 1736294400000 = inl r
       /\ DateImpl.field "days" (DateImpl.f_difference r) = Some 7
       /\ DateImpl.f_is_past r = true
       /\ DateImpl.f_human_readable r = "7 days ago").
Proof.
  intros [r [H [_ [_ Hh]]]]. vm_compute in H. inversion H; subst r.
  vm_compute in Hh. discriminate Hh.
Qed.

(** C5 (amended).  With the reference 2025-01-01T00:00:00Z and the clock
    at 2025-01-08T00:00:00Z both implementations answer 7 days and "past".
    The phrase is "7 days ago" in the second implementation, where the
    relative-time formatter is the English one, and "1週間前" (one week
    ago) in the first, whose table of units has the week. *)
Theorem C5_seven_days :
  forall (other : string -> Zone -> option DateTime)
         (intl : DateTime -> string -> string) (host : DateImpl.HostZone)
         (legacy : string -> option Z) (locale : string),
  DateImpl.toISOString 1736294400000 = "2025-01-08T00:00:00.000Z"
  /\ (exists r d,
        LuxonImpl.get_time_difference Tz.tzdb utcZone other intl relFormatEn "UTC"
          "2025-01-01T00:00:00Z" None LuxonImpl.d_all None locale 1736294400000
        = inl r
        /\ LuxonImpl.f_difference r = Some d
        /\ LuxonImpl.field "days" d = Some 7%Q
        /\ LuxonImpl.f_is_past r = true
        /\ LuxonImpl.f_human_readable r = "7 days ago")
  /\ (exists r,
        DateImpl.get_time_difference host legacy "2025-01-01T00:00:00Z"
          DateImpl.d_all 1736294400000 = inl r
        /\ DateImpl.field "days" (DateImpl.f_difference r) = Some 7
        /\ DateImpl.f_is_past r = true
        /\ DateImpl.f_human_readable r = "1週間前").
Proof.
  intros. split; [reflexivity|]. split.
  - do 2 eexists. split; [reflexivity|].
    split; [reflexivity|]. split; [vm_compute; reflexivity|].
    split; [reflexivity|]. vm_compute. reflexivity.
  - eexists. split; [reflexivity|]. repeat split; vm_compute; reflexivity.
Qed.

(** ** C6: the magnitudes of a difference *)

(** C6 (code bug).  In the second implementation [milliseconds] is the
    millisecond field of the broken-down duration, a remainder below one
    second, not the elapsed milliseconds: for 2025-01-08 against
    2025-01-01 it is 0, where the floor of the elapsed milliseconds is
    604800000.  The larger units are converted at 30 days a month: for
    2025-03-01 against 2025-02-01 [days] is 30, where 28 days elapsed. *)
Theorem C6_luxon_milliseconds_is_a_remainder :
  let a := fromMillis 1736294400000 utcZone in
  let b := fromMillis 1735689600000 utcZone in
  toISO a = "2025-01-08T00:00:00.000Z"
  /\ toISO b = "2025-01-01T00:00:00.000Z"
  /\ LuxonImpl.field "milliseconds" (LuxonImpl.calculateDifference a b) = Some 0%Q
  /\ Spec.magnitude 1736294400000 1735689600000 "milliseconds" = 604800000
  /\ toISO (fromMillis 1740787200000 utcZone) = "2025-03-01T00:00:00.000Z"
  /\ toISO (fromMillis 1738368000000 utcZone) = "2025-02-01T00:00:00.000Z"
  /\ LuxonImpl.field "days"
       (LuxonImpl.calculateDifference (fromMillis 1740787200000 utcZone)
          (fromMillis 1738368000000 utcZone)) = Some 30%Q
  /\ Spec.magnitude 1740787200000 1738368000000 "days" = 28.
Proof. vm_compute. repeat split. Qed.

(** The first implementation does what the claim says: every magnitude is
    the floor of the elapsed milliseconds over the length of its unit, each
    on its own, none negative, and the direction is in [is_past]. *)
Lemma date_impl_magnitudes host legacy target_date now target key :
  DateImpl.dateParse host legacy target_date = Some target ->
  In key ["milliseconds"; "seconds"; "minutes"; "hours"; "days"; "weeks"] ->
  exists r,
    DateImpl.get_time_difference host legacy target_date DateImpl.d_all now = inl r
    /\ DateImpl.field key (DateImpl.f_difference r)
       = Some (Spec.magnitude now target key)
    /\ 0 <= Spec.magnitude now target key
    /\ DateImpl.f_is_past r = (target <? now).
Proof.
  intros Hp Hk. unfold DateImpl.get_time_difference. rewrite Hp.
  eexists. split; [reflexivity|].
  cbn [DateImpl.f_difference DateImpl.selectUnit DateImpl.f_is_past].
  split; [|split].
  - unfold Spec.magnitude.
    repeat (destruct Hk as [Hk | Hk];
            [subst key; cbn; rewrite ?Z.div_1_r; reflexivity|]).
    destruct Hk.
  - unfold Spec.magnitude.
    repeat (destruct Hk as [Hk | Hk];
            [subst key; apply Z.div_pos; [lia | reflexivity]|]).
    destruct Hk.
  - destruct (Z.ltb_spec 0 (now - target)), (Z.ltb_spec target now); auto; lia.
Qed.

(** ** C7: adding a duration and its negation *)




(** ** C8: parsing and printing again *)

(** C8 (code bug).  ["2025-01-01T10:00:00+09"] carries an explicit
    offset and denotes 2025-01-01T01:00:00Z.  Parsed with the fallback zone
    Asia/Tokyo and printed again it reads
    ["2025-01-01T01:00:00.000+09:00"], which denotes 2024-12-31T16:00:00Z:
    the round trip loses nine hours.  The same happens to
    ["2025-01-01T10:00:00+0900"].  The defect is the one of C3. *)
Theorem C8_round_trip_lost_without_colon :
  forall defaultZone other intl locale tsNow,
  let lost s :=
    exists dt l l',
      LuxonImpl.parseDateWithTimezone Tz.tzdb defaultZone other tsNow s
        (Some "Asia/Tokyo") = Some dt
      /\ LuxonImpl.s_iso (LuxonImpl.formatDateInfo intl dt locale)
         = "2025-01-01T01:00:00.000+09:00"
      /\ Iso.parse (LuxonImpl.s_iso (LuxonImpl.formatDateInfo intl dt locale))
         = Some l'
      /\ Iso.denoted l' = Some 1735660800000
      /\ Iso.parse s = Some l
      /\ Iso.l_offset l <> None
      /\ Iso.denoted l = Some 1735693200000 in
  lost "2025-01-01T10:00:00+09" /\ lost "2025-01-01T10:00:00+0900".
Proof.
  intros. subst lost. cbv beta.
  split; do 3 eexists;
    (split; [reflexivity|]); (split; [reflexivity|]);
    (split; [vm_compute; reflexivity|]); (split; [reflexivity|]);
    (split; [vm_compute; reflexivity|]); (split; [discriminate|]);
    reflexivity.
Qed.

(** ** C9: the day of the week *)



(** The first implementation has the same numbering and the same test. *)
Lemma date_impl_weekday host tv :
  let k := DateImpl.c_dayOfWeek (DateImpl.components host tv) in
  k = WeekDay (DateImpl.LocalTime host tv)
  /\ 0 <= k <= 6
  /\ (DateImpl.x_isWeekend (DateImpl.context host tv) = true <-> k = 0 \/ k = 6).
Proof.
  cbn [DateImpl.c_dayOfWeek DateImpl.components DateImpl.context DateImpl.x_isWeekend].
  unfold DateImpl.getDay. split; [reflexivity|].
  split; [apply WeekdayFacts.WeekDay_bounds|].
  rewrite orb_true_iff, !Z.eqb_eq. tauto.
Qed.

(** ** C10: get_current_time of the first implementation *)



(** * Further properties of the code *)

(** ** First implementation: helper facts *)

Module DateFacts.
Import DateImpl Show Iso PrintFacts.

Lemma LocalTime_fixed o t : LocalTime (fixedHost o) t = t + o * 60000.
Proof. reflexivity. Qed.

(** [new Date(y, m, d)] read on the clock of a host at a fixed offset. *)
Lemma newDateYMD_local o y m d :
  ~ (0 <= y <= 99) ->
  LocalTime (fixedHost o) (newDateYMD (fixedHost o) y m d)
  = MakeDate (MakeDay y m d) 0.
Proof.
  intros H. unfold newDateYMD.
  destruct (Z.leb_spec 0 y), (Z.leb_spec y 99); cbn [andb]; try lia;
    unfold LocalTime, UTC; cbn [tzaOfUTC tzaOfLocal fixedHost]; lia.
Qed.

Lemma newDateYMD_fixed o y m d :
  ~ (0 <= y <= 99) ->
  newDateYMD (fixedHost o) y m d = MakeDay y m d * msPerDay - o * msPerMinute.
Proof.
  intros H. unfold newDateYMD.
  destruct (Z.leb_spec 0 y), (Z.leb_spec y 99); cbn [andb]; try lia;
    unfold UTC; cbn [tzaOfLocal fixedHost]; unfold MakeDate; ring.
Qed.

Lemma MakeDay_january y d : MakeDay y 0 d = DayFromYear y + d - 1.
Proof.
  unfold MakeDay. change (0 / 12) with 0. change (0 mod 12) with 0.
  unfold monthStart. change (0 <=? 0) with true. cbv iota.
  rewrite !Z.add_0_r. reflexivity.
Qed.

Lemma getDayOfYear_fixed o tv :
  let local := tv + o * 60000 in
  ~ (0 <= YearFromTime local <= 99) ->
  getDayOfYear (fixedHost o) tv = DayWithinYear local + 1
  /\ 1 <= getDayOfYear (fixedHost o) tv <= DaysInYear (YearFromTime local).
Proof.
  intros local H.
  assert (E : getDayOfYear (fixedHost o) tv = DayWithinYear local + 1).
  { unfold getDayOfYear, getFullYear. rewrite LocalTime_fixed. fold local.
    rewrite newDateYMD_fixed by exact H.
    rewrite MakeDay_january. unfold DayWithinYear, Day.
    change (1000 * 60 * 60 * 24) with msPerDay.
    replace (tv - ((DayFromYear (YearFromTime local) + 0 - 1) * msPerDay
                   - o * msPerMinute))
      with (local + (1 - DayFromYear (YearFromTime local)) * msPerDay)
      by (unfold local, msPerMinute; lia).
    rewrite Z.div_add by (unfold msPerDay; lia). lia. }
  split; [exact E|]. rewrite E.
  pose proof (DayWithinYear_bounds local). lia.
Qed.

Lemma getDayOfYear_early_years o tv :
  let local := tv + o * 60000 in
  0 <= YearFromTime local <= 99 ->
  getDayOfYear (fixedHost o) tv < - 650000.
Proof.
  intros local H.
  unfold getDayOfYear, getFullYear. rewrite LocalTime_fixed. fold local.
  unfold newDateYMD.
  destruct (Z.leb_spec 0 (YearFromTime local)),
    (Z.leb_spec (YearFromTime local) 99); cbn [andb]; try lia.
  unfold UTC. cbn [tzaOfLocal fixedHost].
  rewrite MakeDay_january. unfold MakeDate.
  change (1000 * 60 * 60 * 24) with msPerDay.
  set (y := YearFromTime local) in *.
  replace (tv - ((DayFromYear (1900 + y) + 0 - 1) * msPerDay + 0 - o * msPerMinute))
    with (local + (1 - DayFromYear (1900 + y)) * msPerDay)
    by (unfold local, msPerMinute; lia).
  rewrite Z.div_add by (unfold msPerDay; lia).
  pose proof (YearFromDay_spec (Day local)) as S.
  fold (YearFromTime local) in S. fold y in S. fold (Day local).
  assert (DayFromYear (y + 1) <= DayFromYear 100) by (apply DayFromYear_mono; lia).
  assert (DayFromYear 1900 <= DayFromYear (1900 + y)) by (apply DayFromYear_mono; lia).
  change (DayFromYear 100) with (-683003) in *.
  change (DayFromYear 1900) with (-25567) in *.
  lia.
Qed.

Lemma Qceiling_make (a : Z) (b : positive) : Qceiling (a # b) = - ((- a) / Zpos b).
Proof. reflexivity. Qed.

Lemma week_fraction (r w : Z) :
  (((inject_Z r / 86400000 + inject_Z w + 1) / 7)
   == (r + (w + 1) * 86400000) # 604800000)%Q.
Proof.
  unfold Qeq, Qdiv, Qmult, Qplus, Qinv, inject_Z. simpl Qnum. simpl Qden.
  cbn [Z.mul Pos.mul Z.add]. lia.
Qed.

Lemma getWeekNumber_fixed o tv :
  let local := tv + o * 60000 in
  let y := YearFromTime local in
  ~ (0 <= y <= 99) ->
  let jan1 := WeekDay (MakeDate (DayFromYear y) 0) in
  let late := if TimeWithinDay local =? 0 then 0 else 1 in
  getWeekNumber (fixedHost o) tv = (DayWithinYear local + jan1 + late) / 7 + 1
  /\ 1 <= getWeekNumber (fixedHost o) tv <= 54.
Proof.
  intros local y H jan1 late.
  assert (E : getWeekNumber (fixedHost o) tv
              = (DayWithinYear local + jan1 + late) / 7 + 1).
  { unfold getWeekNumber, getFullYear, getDay.
    rewrite !LocalTime_fixed. fold local. fold y.
    rewrite newDateYMD_fixed by exact H. rewrite MakeDay_january.
    replace ((DayFromYear y + 1 - 1) * msPerDay - o * msPerMinute + o * 60000)
      with (MakeDate (DayFromYear y) 0) by (unfold MakeDate, msPerMinute; ring).
    fold jan1.
    rewrite (Qceiling_comp _ _ (week_fraction _ jan1)).
    rewrite Qceiling_make.
    pose proof (WeekdayFacts.WeekDay_bounds (MakeDate (DayFromYear y) 0)) as Bw.
    fold jan1 in Bw.
    pose proof (DayWithinYear_bounds local) as Bd.
    assert (Hl : local = (DayWithinYear local + DayFromYear y) * 86400000
                         + TimeWithinDay local).
    { unfold DayWithinYear, Day, TimeWithinDay, msPerDay. fold y.
      pose proof (Z.div_mod local 86400000). lia. }
    assert (Bt : 0 <= TimeWithinDay local < 86400000).
    { unfold TimeWithinDay, msPerDay. apply Z.mod_pos_bound. lia. }
    set (d := DayWithinYear local) in *. set (tw := TimeWithinDay local) in *.
    replace (tv - ((DayFromYear y + 1 - 1) * msPerDay - o * msPerMinute))
      with (d * 86400000 + tw)
      by (unfold local, msPerDay, msPerMinute in *; lia).
    clearbody d tw jan1. subst late.
    destruct (Z.eqb_spec tw 0) as [T | T].
    - subst tw. Z.div_mod_to_equations. lia.
    - Z.div_mod_to_equations. lia. }
  split; [exact E|]. rewrite E.
  pose proof (WeekdayFacts.WeekDay_bounds (MakeDate (DayFromYear y) 0)) as Bw.
  fold jan1 in Bw.
  pose proof (DayWithinYear_bounds local) as Bd.
  assert (DaysInYear (YearFromTime local) <= 366)
    by (unfold DaysInYear; destruct (isLeap _); lia).
  assert (0 <= late <= 1) by (subst late; destruct (_ =? _); lia).
  Z.div_mod_to_equations. lia.
Qed.

End DateFacts.

Module DateFieldFacts.
Import DateImpl Show Iso PrintFacts DateFacts.

Lemma MakeDate_ms D h m s ms :
  MakeDate D (MakeTime h m s ms) = MakeDate D (MakeTime h m s 0) + ms.
Proof.
  unfold MakeDate, MakeTime. rewrite Z.add_0_r, !Z.add_assoc. reflexivity.
Qed.

(** The calendar and clock fields of a time value, without the
    milliseconds, give the time value cut to the second. *)
Lemma rebuild_seconds t :
  MakeDate (MakeDay (YearFromTime t) (MonthFromTime t) (DateFromTime t))
       (MakeTime (HourFromTime t) (MinFromTime t) (SecFromTime t) 0)
     = t - t mod 1000.
Proof.
  pose proof (fields_roundtrip t) as R.
  rewrite MakeDate_ms in R.
  change (msFromTime t) with (t mod 1000) in R.
  set (A := MakeDate _ _) in *. clearbody A. lia.
Qed.

Lemma quarter_facts m : 0 <= m <= 11 ->
  (m + 3) / 3 = (m + 1 - 1) / 3 + 1 /\ 1 <= (m + 3) / 3 <= 4.
Proof. intros. Z.div_mod_to_equations. lia. Qed.

Lemma local_fields t :
  1 <= MonthFromTime t + 1 <= 12
  /\ 1 <= DateFromTime t <= Iso.daysIn (YearFromTime t) (MonthFromTime t + 1)
  /\ 0 <= HourFromTime t <= 23 /\ 0 <= MinFromTime t <= 59
  /\ 0 <= SecFromTime t <= 59 /\ 0 <= WeekDay t <= 6
  /\ (MonthFromTime t + 3) / 3 = (MonthFromTime t + 1 - 1) / 3 + 1
  /\ 1 <= (MonthFromTime t + 3) / 3 <= 4
  /\ MakeDate (MakeDay (YearFromTime t) (MonthFromTime t + 1 - 1) (DateFromTime t))
       (MakeTime (HourFromTime t) (MinFromTime t) (SecFromTime t) 0)
     = t - t mod 1000.
Proof.
  pose proof (MonthFromTime_bounds t) as Bm.
  pose proof (day_within_month t) as Bd.
  pose proof (clock_bounds t) as (Bh & Bmi & Bs & _).
  pose proof (WeekdayFacts.WeekDay_bounds t) as Bw.
  rewrite daysInMonth_daysIn in Bd by lia.
  pose proof (quarter_facts _ Bm) as (Q1 & Q2).
  split; [lia|]. split; [lia|]. split; [lia|]. split; [lia|].
  split; [lia|]. split; [lia|]. split; [exact Q1|]. split; [exact Q2|].
  rewrite Z.add_simpl_r. apply rebuild_seconds.
Qed.

(** Day 0 of the next month is the last day of this one. *)
Lemma MakeDay_month_end y m :
  0 <= m <= 11 -> MakeDay y (m + 1) 0 = MakeDay y m (daysInMonth y (m + 1)).
Proof.
  intros Hm. unfold MakeDay.
  rewrite (Z.div_small m 12), (Z.mod_small m 12) by lia.
  destruct (Z.eq_dec m 11) as [E | E].
  - subst m. change ((11 + 1) / 12) with 1. change ((11 + 1) mod 12) with 0.
    rewrite DayFromYear_succ.
    pose proof (month_length y 11 ltac:(lia)) as L.
    change (11 + 1) with 12 in *.
    assert (M12 : forall leap, monthStart leap 12 = 365 + leap) by reflexivity.
    rewrite M12 in L.
    assert (M0 : forall leap, monthStart leap 0 = 0) by reflexivity.
    rewrite M0. unfold DaysInYear. rewrite !Z.add_0_r.
    destruct (isLeap y); lia.
  - rewrite (Z.div_small (m + 1) 12), (Z.mod_small (m + 1) 12) by lia.
    rewrite !Z.add_0_r. rewrite (month_length y m Hm). lia.
Qed.

Lemma month_end_date y m :
  0 <= m <= 11 ->
  DateFromTime (MakeDate (MakeDay y (m + 1) 0) 0) = Iso.daysIn y (m + 1).
Proof.
  intros Hm. rewrite MakeDay_month_end by exact Hm.
  pose proof (daysInMonth_lower y (m + 1) ltac:(lia)) as L.
  rewrite <- daysInMonth_daysIn by lia.
  apply (date_of_MakeDay y m (daysInMonth y (m + 1)) 0); unfold msPerDay; lia.
Qed.

Lemma daysInMonth_fixed o tv :
  let local := tv + o * 60000 in
  ~ (0 <= YearFromTime local <= 99) ->
  x_daysInMonth (context (fixedHost o) tv)
  = Iso.daysIn (YearFromTime local) (MonthFromTime local + 1).
Proof.
  intros local H.
  pose proof (MonthFromTime_bounds local) as Bm.
  cbn [x_daysInMonth context]. unfold getDate, getFullYear, getMonth.
  rewrite !(LocalTime_fixed o tv). fold local.
  rewrite newDateYMD_local by exact H.
  apply month_end_date. exact Bm.
Qed.

(** Luxon's ordinal is the day within the year, counted from 1. *)
Lemma ordinal_is_day_within_year t :
  computeOrdinal (YearFromTime t) (MonthFromTime t + 1) (DateFromTime t)
  = DayWithinYear t + 1.
Proof.
  unfold computeOrdinal, DateFromTime.
  rewrite isLeapYear_isLeap. unfold InLeapYear.
  pose proof (MonthFromTime_bounds t) as Bm.
  set (m := MonthFromTime t) in *. clearbody m.
  replace (m + 1 - 1) with m by lia.
  destruct (monthStart_table (if isLeap (YearFromTime t) then 1 else 0))
    as (T0 & T1 & T2 & T3 & T4 & T5 & T6 & T7 & T8 & T9 & T10 & T11).
  destruct (months_cases m Bm) as [E|[E|[E|[E|[E|[E|[E|[E|[E|[E|[E|E]]]]]]]]]]];
    subst m;
    rewrite ?T0, ?T1, ?T2, ?T3, ?T4, ?T5, ?T6, ?T7, ?T8, ?T9, ?T10, ?T11;
    destruct (isLeap (YearFromTime t));
    match goal with
    | |- context [nth ?a ?l ?d] =>
        let v := eval vm_compute in (nth a l d) in change (nth a l d) with v
    end; lia.
Qed.


End DateFieldFacts.

Module DateTextFacts.
Import DateImpl Show Iso PrintFacts.


(** The literal that [Iso.parse] reads in the text of [toISOString]. *)
Lemma toISOString_literal tv :
  0 <= YearFromTime tv <= 9999 ->
  Iso.parse (toISOString tv)
  = Some (mkLiteral (YearFromTime tv) (MonthFromTime tv + 1) (DateFromTime tv)
            (Some (mkTime (HourFromTime tv) (MinFromTime tv) (SecFromTime tv)
                     (msFromTime tv)))
            (mkShape true 3) (Some OffZ)).
Proof.
  intros Hy. unfold toISOString, showDateTime, showYear.
  replace ((0 <=? YearFromTime tv) && (YearFromTime tv <=? 9999)) with true
    by (symmetry; apply andb_true_iff; split; apply Z.leb_le; lia).
  pose proof (MonthFromTime_bounds tv) as Bm.
  pose proof (day_within_month tv) as Bd.
  pose proof (daysInMonth_lower (YearFromTime tv) (MonthFromTime tv + 1)
                ltac:(lia)) as Bl.
  pose proof (clock_bounds tv) as (Bh & Bmi & Bs & Bms).
  rewrite !app_assoc.
  change (String "-" (pad 2 (MonthFromTime tv + 1) ++ _))
    with ("-" ++ pad 2 (MonthFromTime tv + 1) ++ "-" ++
          pad 2 (DateFromTime tv) ++ "T" ++ pad 2 (HourFromTime tv) ++ ":" ++
          pad 2 (MinFromTime tv) ++ ":" ++ pad 2 (SecFromTime tv) ++ "." ++
          pad 3 (msFromTime tv) ++ "Z").
  apply parse_printed; try lia; reflexivity.
Qed.

Lemma dateParse_toISOString host legacy tv :
  0 <= YearFromTime tv <= 9999 ->
  dateParse host legacy (toISOString tv) = Some tv.
Proof.
  intros Hy. unfold dateParse. rewrite (toISOString_literal tv Hy).
  pose proof (MonthFromTime_bounds tv) as Bm.
  pose proof (day_within_month tv) as Bd.
  pose proof (daysInMonth_lower (YearFromTime tv) (MonthFromTime tv + 1)
                ltac:(lia)) as Bl.
  pose proof (clock_bounds tv) as (Bh & Bmi & Bs & Bms).
  cbn [ecmaFormat l_time l_shape w_minutes w_fraction l_offset Nat.eqb andb orb].
  assert (V : validFieldsEcma
                (mkLiteral (YearFromTime tv) (MonthFromTime tv + 1) (DateFromTime tv)
                   (Some (mkTime (HourFromTime tv) (MinFromTime tv) (SecFromTime tv)
                            (msFromTime tv)))
                   (mkShape true 3) (Some OffZ)) = true).
  { unfold validFieldsEcma, validTime, timeOrMidnight.
    cbn [l_month l_day l_time t_hour t_minute t_second t_milli].
    rewrite !andb_true_iff, orb_true_iff, !andb_true_iff, !Z.leb_le.
    split; [|left]; lia. }
  rewrite V. unfold denoted. cbn [l_offset offsetMinutes]. f_equal.
  unfold localMillis, timeOrMidnight.
  cbn [l_time l_year l_month l_day t_hour t_minute t_second t_milli].
  rewrite Z.add_simpl_r. rewrite fields_roundtrip. lia.
Qed.




End DateTextFacts.

(** ** Second implementation: helper facts *)

Module PatternFacts.
Import LuxonImpl Shapes Show Iso PrintFacts ParseFacts.

Lemma offsetHere_spec t : offsetHere t = true <-> startsWithOffset t.
Proof.
  split.
  - intros H. unfold offsetHere in H.
    destruct t as [|sign [|a [|b [|colon [|c0 [|d rest]]]]]]; try discriminate H.
    rewrite !andb_true_iff in H.
    destruct H as [[[[[Hs Ha] Hb] Hc] Hc0] Hd].
    apply Ascii.eqb_eq in Hc. subst colon.
    exists sign, a, b, c0, d, rest. split; [reflexivity|].
    split; [|tauto].
    unfold Iso.isSign in Hs. apply orb_true_iff in Hs.
    destruct Hs as [Hs | Hs]; apply Ascii.eqb_eq in Hs; auto.
  - intros (sign & a & b & c0 & d & rest & E & Hs & Ha & Hb & Hc0 & Hd).
    subst t. unfold offsetHere. rewrite Ha, Hb, Hc0, Hd.
    destruct Hs; subst sign; reflexivity.
Qed.

Lemma offsetAnywhere_spec s :
  offsetAnywhere s = true <-> exists p t, s = p ++ t /\ startsWithOffset t.
Proof.
  induction s as [|ch s IH].
  - split.
    + intros H. discriminate H.
    + intros (p & t & E & H). destruct p; [|discriminate E].
      simpl in E. subst t. apply offsetHere_spec in H. discriminate H.
  - cbn [offsetAnywhere]. rewrite orb_true_iff, IH, offsetHere_spec. split.
    + intros [H | (p & t & E & H)].
      * exists "", (String ch s). split; [reflexivity | exact H].
      * exists (String ch p), t. split; [simpl; rewrite E; reflexivity | exact H].
    + intros (p & t & E & H). destruct p as [|x p].
      * left. simpl in E. rewrite E. exact H.
      * right. simpl in E. inversion E. exists p, t.
        split; [assumption || reflexivity | exact H].
Qed.

Lemma endsWithZ_spec s : endsWithZ s = true <-> exists p, s = p ++ "Z".
Proof.
  induction s as [|ch s IH].
  - split; [discriminate|]. intros [p E]. destruct p; discriminate E.
  - destruct s as [|ch' s'].
    + cbn [endsWithZ]. split.
      * intros H. apply Ascii.eqb_eq in H. subst ch. exists "". reflexivity.
      * intros [p E]. destruct p as [|x p].
        -- simpl in E. inversion E. reflexivity.
        -- simpl in E. inversion E. destruct p; discriminate.
    + change (endsWithZ (String ch (String ch' s'))) with (endsWithZ (String ch' s')).
      rewrite IH. split.
      * intros [p E]. exists (String ch p). simpl. rewrite E. reflexivity.
      * intros [p E]. destruct p as [|x p].
        -- discriminate E.
        -- simpl in E. inversion E. exists p. assumption.
Qed.

End PatternFacts.

Module ReadBackFacts.
Import LuxonImpl Show Iso PrintFacts ParseFacts.






End ReadBackFacts.

Module ZoneFacts.
Import LuxonImpl.




End ZoneFacts.

Module DiffFacts.
Import LuxonImpl.

Lemma getUnit_negate d k : (getUnit (negate d) k == - getUnit d k)%Q.
Proof. destruct k; exact (Qred_correct _). Qed.

Lemma contribution_negate d target k :
  (contribution (negate d) target k == - contribution d target k)%Q.
Proof.
  unfold contribution.
  destruct (unitEqb k target); [apply getUnit_negate|].
  destruct (matrix k target =? 0).
  - rewrite getUnit_negate. unfold Qdiv. ring.
  - rewrite getUnit_negate. ring.
Qed.

Lemma sum_negate d target (us : list Unit) (a b : Q) :
  (a == - b)%Q ->
  (fold_left (fun acc k => (acc + contribution (negate d) target k)%Q) us a
   == - fold_left (fun acc k => (acc + contribution d target k)%Q) us b)%Q.
Proof.
  revert a b. induction us as [|k us IH]; intros a b H; cbn [fold_left].
  - exact H.
  - apply IH. rewrite H, contribution_negate. ring.
Qed.

(** [as] is odd: the negated duration converts to the opposite number. *)
Lemma as_negate d u : (as_ (negate d) u == - as_ d u)%Q.
Proof.
  unfold as_. rewrite !Qred_correct. apply sum_negate. ring.
Qed.

Lemma whole_negate d u : whole (negate d) u = whole d u.
Proof.
  unfold whole, Num.floor. f_equal. apply Qfloor_comp.
  rewrite as_negate. apply Qabs_opp.
Qed.

Lemma abs_negate (q : Q) : Num.abs (Num.neg q) = Num.abs q.
Proof.
  unfold Num.abs, Num.neg. apply Qred_complete.
  rewrite Qred_correct. apply Qabs_opp.
Qed.

Lemma gtb_asym a b : gtb a b = true -> gtb b a = false.
Proof.
  unfold gtb, Num.ltb. intros H.
  apply negb_true_iff in H. apply negb_false_iff.
  destruct (Qle_bool (ts b) (ts a)) eqn:E; [reflexivity|].
  exfalso.
  assert (A : ~ (ts a <= ts b)%Q) by (rewrite <- Qle_bool_iff; congruence).
  assert (B : ~ (ts b <= ts a)%Q) by (rewrite <- Qle_bool_iff; congruence).
  apply Qnot_le_lt in A. apply B. apply Qlt_le_weak. exact A.
Qed.

Lemma gtb_irrefl a : gtb a a = false.
Proof.
  unfold gtb, Num.ltb. apply negb_false_iff. apply Qle_bool_iff. apply Qle_refl.
Qed.

Lemma calculateDifference_negate d :
  [ ("milliseconds", Num.abs (Luxon.d_milliseconds (negate d)));
    ("seconds", whole (negate d) Seconds); ("minutes", whole (negate d) Minutes);
    ("hours", whole (negate d) Hours); ("days", whole (negate d) Days);
    ("weeks", whole (negate d) Weeks); ("months", whole (negate d) Months);
    ("years", whole (negate d) Years) ]
  = [ ("milliseconds", Num.abs (Luxon.d_milliseconds d));
      ("seconds", whole d Seconds); ("minutes", whole d Minutes);
      ("hours", whole d Hours); ("days", whole d Days);
      ("weeks", whole d Weeks); ("months", whole d Months);
      ("years", whole d Years) ].
Proof.
  rewrite !whole_negate.
  change (Luxon.d_milliseconds (negate d)) with (Num.neg (Luxon.d_milliseconds d)).
  rewrite abs_negate. reflexivity.
Qed.

End DiffFacts.

Module SameInstantFacts.
Import LuxonImpl Shapes DiffFacts.

(** Adding the empty duration changes nothing. *)
Lemma plus_zero t z : plus (fromMillis t z) zeroDuration = fromMillis t z.
Proof.
  unfold plus. change (zone (fromMillis t z)) with z.
  pose proof (adjustTime_fixed z t 0 0 0 0 0 0) as A.
  change (inject_Z 0) with 0%Q in A.
  change (mkDuration 0 0 0 0 0 0 0 0 0) with zeroDuration in A.
  rewrite A.
  - unfold fromMillis. do 2 f_equal. unfold msPerDay. lia.
  - f_equal. unfold msPerDay. lia.
Qed.

Lemma differ_same u a : differ u a a = 0.
Proof.
  destruct u; unfold differ, dayDiff; rewrite ?Z.sub_diag; reflexivity.
Qed.

Lemma setUnit_zero u : setUnit zeroDuration u (inject_Z 0) = zeroDuration.
Proof. destruct u; reflexivity. Qed.

Lemma highOrderStep_same t z units st unit :
  settled (fromMillis t z) st ->
  settled (fromMillis t z)
    (highOrderStep (fromMillis t z) (fromMillis t z) units st unit).
Proof.
  intros (Hc & Hr & Hw). unfold highOrderStep.
  destruct (memUnit unit units); [|repeat split; assumption].
  rewrite Hc, Hr, differ_same, setUnit_zero.
  rewrite plus_zero, gtb_irrefl.
  split; [reflexivity|]. split; [reflexivity|]. right.
  split; [reflexivity|]. split; [reflexivity|]. exists unit. reflexivity.
Qed.

Lemma highOrderDiffs_same t z units :
  settled (fromMillis t z)
    (highOrderDiffs (fromMillis t z) (fromMillis t z) units).
Proof.
  unfold highOrderDiffs, highOrderUnits. cbn [fold_left].
  repeat apply highOrderStep_same.
  split; [reflexivity|]. split; [reflexivity|]. left. split; reflexivity.
Qed.

Lemma remaining_zero t z :
  Num.sub (ts (fromMillis t z)) (ts (fromMillis t z)) = 0%Q.
Proof.
  unfold fromMillis. cbn [ts]. rewrite sub_inject, Z.sub_diag. reflexivity.
Qed.

Lemma diffOrdered_same t z units :
  diffOrdered (fromMillis t z) (fromMillis t z) units = zeroDuration.
Proof.
  unfold diffOrdered. cbv zeta.
  destruct (highOrderDiffs_same t z units) as (Hc & Hr & Hw).
  rewrite Hc, Hr. rewrite remaining_zero.
  destruct (filter (fun u => memUnit u units) lowOrderUnits) as [|x xs] eqn:F.
  - destruct Hw as [[Hw Hl] | (Hw & Hs & (u & Hl))]; rewrite Hw; try rewrite Hl.
    + reflexivity.
    + rewrite gtb_irrefl, Hs. reflexivity.
  - unfold lowOrderUnits in F. cbn [filter] in F.
    destruct (memUnit Hours units), (memUnit Minutes units),
      (memUnit Seconds units), (memUnit Milliseconds units);
      inversion F; subst; vm_compute; reflexivity.
Qed.

Lemma diff_same t z units :
  diff (fromMillis t z) (fromMillis t z) units = zeroDuration.
Proof. unfold diff. rewrite gtb_irrefl. apply diffOrdered_same. Qed.

Lemma toRelative_same (fmt : RelFormat) t z :
  toRelative fmt (fromMillis t z) (fromMillis t z) = fmt false 0 Seconds.
Proof.
  unfold toRelative. rewrite plus_zero.
  unfold relativeUnits, diffRelativeLoop.
  rewrite !diff_same.
  cbn [getUnit zeroDuration Luxon.d_years Luxon.d_months Luxon.d_days
       Luxon.d_hours Luxon.d_minutes Luxon.d_seconds].
  change (Qle_bool 1 (Qabs 0)) with false. cbv iota.
  rewrite gtb_irrefl. reflexivity.
Qed.

End SameInstantFacts.

(** ** First implementation: the properties *)

Import Shapes.

(** X1.  [getHumanReadableDiff] of the first implementation names one
    unit, the largest of its table that fits in the span, with the whole
    number of such units: below one second the phrase is "今", below a
    minute it counts seconds, then minutes, hours, days, weeks (from 7
    days), months of 30 days (from 30 days) and years of 365 days.  A
    negative span gives "今" as well.  The suffix is "前" for the past and
    "後" for the future. *)
Theorem X1_human_readable_bands :
  forall (diffMs : Z) (isPast : bool),
  let sfx := if isPast then "前" else "後" in
  let say n name := Show.showZ n ++ name ++ sfx in
  DateImpl.getHumanReadableDiff diffMs isPast =
    if diffMs <? 1000 then "今"
    else if diffMs <? 60000 then say (diffMs / 1000) "秒"
    else if diffMs <? 3600000 then say (diffMs / 60000) "分"
    else if diffMs <? 86400000 then say (diffMs / 3600000) "時間"
    else if diffMs <? 604800000 then say (diffMs / 86400000) "日"
    else if diffMs <? 2592000000 then say (diffMs / 604800000) "週間"
    else if diffMs <? 31536000000 then say (diffMs / 2592000000) "ヶ月"
    else say (diffMs / 31536000000) "年".
Proof.
  intros diffMs isPast sfx say.
  unfold DateImpl.getHumanReadableDiff, DateImpl.units, DateImpl.humanLoop.
  change (365 * 24 * 60 * 60 * 1000) with 31536000000.
  change (30 * 24 * 60 * 60 * 1000) with 2592000000.
  change (7 * 24 * 60 * 60 * 1000) with 604800000.
  change (24 * 60 * 60 * 1000) with 86400000.
  change (60 * 60 * 1000) with 3600000.
  change (60 * 1000) with 60000.
  fold sfx.
  repeat match goal with
  | |- context [0 <? ?a / ?b] =>
      let H := fresh in
      assert (H : (0 <? a / b) = negb (a <? b))
        by (destruct (Z.ltb_spec 0 (a / b)), (Z.ltb_spec a b); try reflexivity;
            exfalso; Z.div_mod_to_equations; lia);
      rewrite H; clear H
  end.
  repeat match goal with
  | |- context [?a <? ?b] => destruct (Z.ltb_spec a b); cbn [negb]; try lia
  end; reflexivity.
Qed.

(** X2.  [formatters.toRelativeTime]: its three nested roundings lose
    nothing, so the text depends on the whole minutes, hours or days since
    the date.  A date less than a minute old, and every date in the future,
    is "今"; seconds are never reported. *)
Theorem X2_relative_time_bands :
  forall (date now : Z),
  let d := now - date in
  DateImpl.toRelativeTime date now =
    if d <? 60000 then "今"
    else if d <? 3600000 then Show.showZ (d / 60000) ++ "分前"
    else if d <? 86400000 then Show.showZ (d / 3600000) ++ "時間前"
    else Show.showZ (d / 86400000) ++ "日前".
Proof.
  intros date now d. unfold DateImpl.toRelativeTime. fold d. cbv zeta.
  rewrite !Z.div_div by lia.
  change (1000 * 60) with 60000. change (60000 * 60) with 3600000.
  change (3600000 * 24) with 86400000.
  repeat match goal with
  | |- context [0 <? ?a / ?b] =>
      let H := fresh in
      assert (H : (0 <? a / b) = negb (a <? b))
        by (destruct (Z.ltb_spec 0 (a / b)), (Z.ltb_spec a b); try reflexivity;
            exfalso; Z.div_mod_to_equations; lia);
      rewrite H; clear H
  end.
  repeat match goal with
  | |- context [?a <? ?b] => destruct (Z.ltb_spec a b); cbn [negb]; try lia
  end; reflexivity.
Qed.

(** X3.  [getDayOfYear] of the first implementation, on a host whose
    offset from UTC is fixed: for a date whose local year is not one of
    0..99 it is the day of the year counted from 1, between 1 and 365 (366
    in a leap year).  For a local year in 0..99 it is a large negative
    number, because [new Date(year, 0, 0)] reads such a year as 1900 +
    year. *)
Theorem X3_day_of_year :
  forall (o tv : Z),
  let local := tv + o * 60000 in
  (~ (0 <= YearFromTime local <= 99) ->
   DateImpl.getDayOfYear (DateImpl.fixedHost o) tv = DayWithinYear local + 1
   /\ 1 <= DateImpl.getDayOfYear (DateImpl.fixedHost o) tv
        <= DaysInYear (YearFromTime local))
  /\ (0 <= YearFromTime local <= 99 ->
      DateImpl.getDayOfYear (DateImpl.fixedHost o) tv < - 650000).
Proof.
  intros o tv local. split.
  - apply DateFacts.getDayOfYear_fixed.
  - apply DateFacts.getDayOfYear_early_years.
Qed.

Lemma X3_witness :
  DateImpl.toISOString 1752321600000 = "2025-07-12T12:00:00.000Z"
  /\ DateImpl.getDayOfYear (DateImpl.fixedHost 540) 1752321600000 = 193
  /\ DateImpl.toISOString (-60589296000000) = "0050-01-01T00:00:00.000Z"
  /\ DateImpl.getDayOfYear (DateImpl.fixedHost 0) (-60589296000000) < - 650000.
Proof.
  split; [reflexivity|]. split.
  - destruct (proj1 (X3_day_of_year 540 1752321600000)) as [E _].
    + vm_compute. intros [_ H]. apply H. reflexivity.
    + rewrite E. reflexivity.
  - split; [reflexivity|].
    apply (proj2 (X3_day_of_year 0 (-60589296000000))).
    vm_compute. split; discriminate.
Defined.

(** X4.  [getWeekNumber] of the first implementation, on a host whose
    offset is fixed and for a local year outside 0..99: with [d] the day
    within the year (from 0) and [jan1] the weekday of 1 January, the week
    is [(d + jan1 + 1) / 7 + 1], except at the first instant of a day
    (local 00:00:00.000), where it is [(d + jan1) / 7 + 1].  Weeks
    therefore change on Saturday one millisecond after midnight, and the
    number lies between 1 and 54. *)
Theorem X4_week_number :
  forall (o tv : Z),
  let local := tv + o * 60000 in
  let y := YearFromTime local in
  ~ (0 <= y <= 99) ->
  let jan1 := WeekDay (MakeDate (DayFromYear y) 0) in
  let late := if TimeWithinDay local =? 0 then 0 else 1 in
  DateImpl.getWeekNumber (DateImpl.fixedHost o) tv
  = (DayWithinYear local + jan1 + late) / 7 + 1
  /\ 1 <= DateImpl.getWeekNumber (DateImpl.fixedHost o) tv <= 54.
Proof. exact DateFacts.getWeekNumber_fixed. Qed.

Lemma X4_witness :
  DateImpl.toISOString 1735948800000 = "2025-01-04T00:00:00.000Z"
  /\ WeekDay 1735948800000 = 6
  /\ DateImpl.getWeekNumber (DateImpl.fixedHost 0) 1735948800000 = 1
  /\ DateImpl.getWeekNumber (DateImpl.fixedHost 0) 1735948800001 = 2.
Proof.
  split; [reflexivity|]. split; [reflexivity|]. split.
  - destruct (X4_week_number 0 1735948800000) as [E _].
    + vm_compute. intros [_ H]. apply H. reflexivity.
    + rewrite E. reflexivity.
  - destruct (X4_week_number 0 1735948800001) as [E _].
    + vm_compute. intros [_ H]. apply H. reflexivity.
    + rewrite E. reflexivity.
Defined.

(** X5.  The [components] and [context] that the handlers of the first
    implementation report for an instant are a calendar reading of its
    local time: the month is in 1..12, the day in 1..the length of that
    month, hour, minute and second in their clock ranges, the weekday in
    0..6, the quarter is [(month - 1) / 3 + 1]; and the six fields year to
    second, put together again, are the local time cut to the second. *)
Theorem X5_components_give_the_local_second :
  forall (host : DateImpl.HostZone) (tv : Z),
  let local := DateImpl.LocalTime host tv in
  let k := DateImpl.components host tv in
  let x := DateImpl.context host tv in
  1 <= DateImpl.c_month k <= 12
  /\ 1 <= DateImpl.c_day k <= Iso.daysIn (DateImpl.c_year k) (DateImpl.c_month k)
  /\ 0 <= DateImpl.c_hour k <= 23 /\ 0 <= DateImpl.c_minute k <= 59
  /\ 0 <= DateImpl.c_second k <= 59 /\ 0 <= DateImpl.c_dayOfWeek k <= 6
  /\ DateImpl.x_quarter x = (DateImpl.c_month k - 1) / 3 + 1
  /\ 1 <= DateImpl.x_quarter x <= 4
  /\ MakeDate
       (MakeDay (DateImpl.c_year k) (DateImpl.c_month k - 1) (DateImpl.c_day k))
       (MakeTime (DateImpl.c_hour k) (DateImpl.c_minute k) (DateImpl.c_second k) 0)
     = local - local mod 1000.
Proof.
  intros host tv.
  exact (DateFieldFacts.local_fields (DateImpl.LocalTime host tv)).
Qed.

(** X6.  [context.daysInMonth] of the first implementation, computed as
    the date of day 0 of the next month: on a host whose offset is fixed and
    for a local year outside 0..99 it is the length of the local month (28
    to 31, 29 for a leap February), and the reported day never exceeds
    it. *)
Theorem X6_days_in_month :
  forall (o tv : Z),
  let local := tv + o * 60000 in
  ~ (0 <= YearFromTime local <= 99) ->
  DateImpl.x_daysInMonth (DateImpl.context (DateImpl.fixedHost o) tv)
  = Iso.daysIn (YearFromTime local) (MonthFromTime local + 1)
  /\ 28 <= DateImpl.x_daysInMonth (DateImpl.context (DateImpl.fixedHost o) tv) <= 31
  /\ DateImpl.c_day (DateImpl.components (DateImpl.fixedHost o) tv)
     <= DateImpl.x_daysInMonth (DateImpl.context (DateImpl.fixedHost o) tv).
Proof.
  intros o tv local H.
  pose proof (MonthFromTime_bounds local) as Bm.
  rewrite (DateFieldFacts.daysInMonth_fixed o tv H). fold local.
  split; [reflexivity|].
  rewrite <- daysInMonth_daysIn by lia.
  split; [apply daysInMonth_lower; lia|].
  cbn [DateImpl.c_day DateImpl.components]. unfold DateImpl.getDate.
  rewrite (DateFacts.LocalTime_fixed o tv). fold local. apply day_within_month.
Qed.

Lemma X6_witness :
  DateImpl.toISOString 1709164800000 = "2024-02-29T00:00:00.000Z"
  /\ DateImpl.x_daysInMonth
       (DateImpl.context (DateImpl.fixedHost 0) 1709164800000) = 29.
Proof.
  split; [reflexivity|].
  destruct (X6_days_in_month 0 1709164800000) as [E _].
  - vm_compute. intros [_ H]. apply H. reflexivity.
  - rewrite E. reflexivity.
Defined.







(** X10.  [get_time_difference] of the first implementation on a target
    that is the present instant: [is_past] is false, [relative] is "未来"
    (future), the phrase is "今" and every magnitude is 0, whatever unit is
    asked for. *)
Theorem X10_date_difference_at_the_same_instant :
  forall host legacy (target_date : string) (u : DateImpl.DiffUnit) (now : Z),
  DateImpl.dateParse host legacy target_date = Some now ->
  exists r,
    DateImpl.get_time_difference host legacy target_date u now = inl r
    /\ DateImpl.f_is_past r = false /\ DateImpl.f_relative r = "未来"
    /\ DateImpl.f_human_readable r = "今"
    /\ (forall k v, DateImpl.field k (DateImpl.f_difference r) = Some v -> v = 0).
Proof.
  intros host legacy target_date u now Hp.
  unfold DateImpl.get_time_difference. rewrite Hp.
  eexists. split; [reflexivity|].
  cbn [DateImpl.f_is_past DateImpl.f_relative DateImpl.f_human_readable
       DateImpl.f_difference].
  rewrite Z.sub_diag. cbn [Z.abs Z.ltb Z.compare].
  split; [reflexivity|]. split; [reflexivity|]. split; [reflexivity|].
  intros k v H.
  destruct u; cbn in H;
    repeat match type of H with
    | context [String.eqb ?a ?b] => destruct (String.eqb a b)
    end; inversion H; reflexivity.
Qed.

Lemma X10_witness :
  exists r,
    DateImpl.get_time_difference (DateImpl.fixedHost 0) Tz.noLegacy
      "2025-01-08T00:00:00Z" DateImpl.d_all 1736294400000 = inl r
    /\ DateImpl.f_relative r = "未来" /\ DateImpl.f_human_readable r = "今".
Proof.
  destruct (X10_date_difference_at_the_same_instant (DateImpl.fixedHost 0)
              Tz.noLegacy "2025-01-08T00:00:00Z" DateImpl.d_all 1736294400000)
    as (r & H & _ & Hr & Hh & _).
  - reflexivity.
  - exists r. split; [exact H|]. split; [exact Hr | exact Hh].
Defined.

(** X11.  The [timezone] block of [get_current_time] in the first
    implementation, for a requested zone that is not the server's: for a
    zone the runtime knows, on a host at the fixed offset [o], the
    [converted.iso] text is the [toISOString] of the clock cut to the second
    and moved by the difference between the zone's offset and the host's
    (the wall clock of the zone, written with a [Z]); for a zone the
    runtime does not know there is no [converted] block and [error] is
    "無効なタイムゾーン: " followed by the name.  [current] is that of the
    clock in both cases. *)
Theorem X11_converted_block :
  forall (o : Z) intl tzdb (timezone : string) (req : option string)
         (locale : string) (now : Z) (name : string),
  DateImpl.orElse req timezone = name -> name <> "" -> name <> timezone ->
  let r := DateImpl.get_current_time (DateImpl.fixedHost o) intl tzdb timezone
             req locale now in
  DateImpl.ti_current r = DateImpl.stamp intl now locale
  /\ match tzdb name with
     | Some off =>
         let shifted := now - now mod 1000 + (off now - o) * 60000 in
         DateImpl.z_converted (DateImpl.ti_timezone r)
         = Some (DateImpl.mkConverted (DateImpl.toISOString shifted)
                   (intl shifted locale))
         /\ DateImpl.z_error (DateImpl.ti_timezone r) = None
     | None =>
         DateImpl.z_converted (DateImpl.ti_timezone r) = None
         /\ DateImpl.z_error (DateImpl.ti_timezone r)
            = Some ("無効なタイムゾーン: " ++ name)
     end.
Proof.
  intros o intl tzdb timezone req locale now name He Hn Hd r. subst r.
  unfold DateImpl.get_current_time.
  cbn [DateImpl.ti_timezone DateImpl.ti_current].
  split; [reflexivity|]. rewrite He.
  destruct (String.eqb_spec name "") as [E | _]; [contradiction|].
  destruct (String.eqb_spec name timezone) as [E | _]; [contradiction|].
  cbn [negb andb]. unfold DateImpl.timezoneBlock, DateImpl.wallClockInZone.
  destruct (tzdb name) as [off|]; cbn [DateImpl.z_converted DateImpl.z_error].
  - assert (S : DateImpl.UTC (DateImpl.fixedHost o)
                  (now + off now * msPerMinute
                   - (now + off now * msPerMinute) mod msPerSecond)
                = now - now mod 1000 + (off now - o) * 60000).
    { unfold DateImpl.UTC. cbn [DateImpl.tzaOfLocal DateImpl.fixedHost].
      unfold msPerMinute, msPerSecond.
      replace (now + off now * 60000) with (now + (off now * 60) * 1000) by lia.
      rewrite Z.mod_add by lia. lia. }
    rewrite S. split; reflexivity.
  - split; reflexivity.
Qed.

Lemma X11_witness :
  let r := DateImpl.get_current_time (DateImpl.fixedHost 0) Tz.noText Tz.tzdb
             "UTC" (Some "Asia/Tokyo") "ja-JP" 1736294400123 in
  DateImpl.s_iso (DateImpl.ti_current r) = "2025-01-08T00:00:00.123Z"
  /\ option_map DateImpl.v_iso (DateImpl.z_converted (DateImpl.ti_timezone r))
     = Some "2025-01-08T09:00:00.000Z".
Proof.
  intros r.
  destruct (X11_converted_block 0 Tz.noText Tz.tzdb "UTC" (Some "Asia/Tokyo")
              "ja-JP" 1736294400123 "Asia/Tokyo") as [Hc Hz].
  - reflexivity.
  - discriminate.
  - discriminate.
  - split.
    + fold r in Hc. rewrite Hc. reflexivity.
    + cbv zeta in Hz. fold r in Hz.
      change (Tz.tzdb "Asia/Tokyo") with (Some Tz.tokyo) in Hz.
      destruct Hz as [Hz _]. rewrite Hz. reflexivity.
Defined.

(** ** The two implementations side by side *)



(** ** Second implementation: the properties *)







(** X16.  The test of [parseDateWithTimezone] for "explicit timezone
    information" is true exactly for a text that contains, anywhere, a sign
    followed by two digits, a colon and two digits, or that ends with the
    letter Z.  (So [+hh] and [+hhmm] are not seen, and any text that ends
    with Z is taken to carry a zone.) *)
Theorem X16_offset_pattern :
  forall s : string, LuxonImpl.hasTimezone s = true <-> matchesPattern s.
Proof.
  intros s. unfold LuxonImpl.hasTimezone, matchesPattern.
  rewrite orb_true_iff, PatternFacts.offsetAnywhere_spec,
    PatternFacts.endsWithZ_spec.
  reflexivity.
Qed.



(** X18.  A literal without offset and with valid fields, given a fallback
    zone that the runtime knows and whose offset never changes: the result
    of [parseDateWithTimezone] is in that zone, its calendar reading there
    is the reading of the literal, and its instant is that reading less the
    zone's offset. *)
Theorem X18_literal_without_offset_is_wall_clock :
  forall tzdb defaultZone other (tsNow : Z) (s name : string) (z : Zone)
         (l : Iso.Literal),
  LuxonImpl.hasTimezone s = false ->
  Iso.parse s = Some l -> Iso.validFields l = true ->
  Iso.t_hour (Iso.timeOrMidnight l) <= 23 ->
  Iso.l_offset l = None ->
  name <> "" -> normalizeZone tzdb defaultZone name = Some z ->
  constantOffset z -> (zoneEquals z utcZone = true -> z = utcZone) ->
  exists dt,
    LuxonImpl.parseDateWithTimezone tzdb defaultZone other tsNow s (Some name)
    = Some dt
    /\ zone dt = z
    /\ c dt = literalObj l
    /\ ts dt = inject_Z (Iso.localMillis l - zoffset z 0 * 60 * 1000).
Proof. exact ParseFacts.parse_without_offset. Qed.

Lemma X18_witness :
  exists dt,
    LuxonImpl.parseDateWithTimezone Tz.tzdb utcZone Tz.noOther 0
      "2025-01-01T10:00:00" (Some "Asia/Tokyo") = Some dt
    /\ hour (c dt) = 10
    /\ ts dt = inject_Z 1735693200000.
Proof.
  destruct (X18_literal_without_offset_is_wall_clock Tz.tzdb utcZone Tz.noOther 0
              "2025-01-01T10:00:00" "Asia/Tokyo"
              (mkZone "Asia/Tokyo" false Tz.tokyo) _
              eq_refl eq_refl eq_refl)
    as (dt & H & _ & Hc & Hts).
  - vm_compute. discriminate.
  - reflexivity.
  - discriminate.
  - reflexivity.
  - intros a b. reflexivity.
  - intros H. discriminate H.
  - exists dt. split; [exact H|]. split.
    + rewrite Hc. reflexivity.
    + rewrite Hts. reflexivity.
Defined.

(** X19.  A fallback zone that the runtime does not know is not reported by
    [parseDateWithTimezone]: the text is parsed as if no fallback had been
    given (in the default zone when it carries no offset). *)
Theorem X19_unknown_fallback_is_ignored :
  forall tzdb defaultZone other (tsNow : Z) (s name : string),
  normalizeZone tzdb defaultZone name = None ->
  LuxonImpl.parseDateWithTimezone tzdb defaultZone other tsNow s (Some name)
  = LuxonImpl.parseDateWithTimezone tzdb defaultZone other tsNow s None.
Proof.
  intros tzdb defaultZone other tsNow s name H.
  unfold LuxonImpl.parseDateWithTimezone.
  destruct (LuxonImpl.hasTimezone s); [reflexivity|].
  destruct (String.eqb name ""); [reflexivity|].
  destruct (fromISO defaultZone other tsNow s (Some utcZone)); [|reflexivity].
  unfold setZoneNamed. rewrite H. reflexivity.
Qed.

Lemma X19_witness :
  normalizeZone Tz.tzdb utcZone "Mars/Phobos" = None
  /\ option_map ts
       (LuxonImpl.parseDateWithTimezone Tz.tzdb utcZone Tz.noOther 0
          "2025-01-01T10:00:00" (Some "Mars/Phobos"))
     = Some (inject_Z 1735725600000).
Proof.
  split; [reflexivity|].
  rewrite (X19_unknown_fallback_is_ignored Tz.tzdb utcZone Tz.noOther 0
             "2025-01-01T10:00:00" "Mars/Phobos" eq_refl).
  reflexivity.
Defined.









(** X25.  [calculateDifference] does not depend on the order of its two
    [DateTime]s when they are different instants: every magnitude of
    [calculateDifference a b] is that of [calculateDifference b a]. *)
Theorem X25_calculate_difference_is_symmetric :
  forall a b : DateTime,
  gtb a b = true \/ gtb b a = true ->
  LuxonImpl.calculateDifference a b = LuxonImpl.calculateDifference b a.
Proof.
  intros a b [H | H]; pose proof (DiffFacts.gtb_asym _ _ H) as H';
    unfold LuxonImpl.calculateDifference, diff; rewrite H, H'; cbv zeta.
  - symmetry. apply DiffFacts.calculateDifference_negate.
  - apply DiffFacts.calculateDifference_negate.
Qed.

Lemma X25_witness :
  let a := fromMillis 1740787200000 utcZone in
  let b := fromMillis 1738368000000 (mkZone "Asia/Tokyo" false Tz.tokyo) in
  gtb a b = true
  /\ LuxonImpl.calculateDifference a b = LuxonImpl.calculateDifference b a.
Proof.
  intros a b. split; [reflexivity|].
  apply (X25_calculate_difference_is_symmetric a b). left. reflexivity.
Defined.

(** X26.  The second implementation on two equal [DateTime]s (a whole
    millisecond in any zone): nothing is greater, so [is_past] is false and
    [relative] "future"; every magnitude of [calculateDifference] is 0; and
    [toRelative] asks the formatter for 0 seconds in the future, which in
    English reads "in 0 seconds" (the ['now'] of [getHumanReadableDiff]
    appears only when the formatter returns nothing). *)
Theorem X26_luxon_same_instant :
  forall (rel : RelFormat) (t : Z) (z : Zone),
  let a := fromMillis t z in
  gtb a a = false
  /\ LuxonImpl.calculateDifference a a = noDifference
  /\ toRelative rel a a = rel false 0 Seconds
  /\ LuxonImpl.getHumanReadableDiff rel (Some a) (Some a)
     = (if String.eqb (rel false 0 Seconds) "" then "now"
        else rel false 0 Seconds)
  /\ relFormatEn false 0 Seconds = "in 0 seconds".
Proof.
  intros rel t z a.
  split; [apply DiffFacts.gtb_irrefl|].
  split.
  { unfold LuxonImpl.calculateDifference, a.
    rewrite SameInstantFacts.diff_same. vm_compute. reflexivity. }
  split; [apply SameInstantFacts.toRelative_same|].
  split; [|reflexivity].
  unfold LuxonImpl.getHumanReadableDiff, a.
  rewrite SameInstantFacts.toRelative_same. reflexivity.
Qed.

(** X27.  [calculate_date] and [get_time_difference] of the second
    implementation do not report a target zone that the runtime does not
    know: with a base (or reference) date that is parsed they answer without
    an error, and what they answer is empty: no result view and the phrase
    "now" for [calculate_date]; no dates, no difference, [is_past] false,
    "future" and "now" for [get_time_difference]. *)
Theorem X27_unknown_target_zone_is_not_reported :
  forall tzdb defaultZone other intl rel nts (timezone : string)
         (req : option string) (locale : string) (now : Z),
  normalizeZone tzdb defaultZone (LuxonImpl.orElse req timezone) = None ->
  (forall amount unit base_date base_timezone now2 dt,
     LuxonImpl.truthy base_date = true ->
     LuxonImpl.parseDateWithTimezone tzdb defaultZone other now
       (LuxonImpl.orElse base_date "")
       (Some (LuxonImpl.orElse base_timezone timezone)) = Some dt ->
     exists r,
       LuxonImpl.calculate_date tzdb defaultZone other intl rel nts timezone
         amount unit base_date base_timezone req locale now now2 = inl r
       /\ LuxonImpl.k_base_date (LuxonImpl.r_calculation r) = toISO dt
       /\ LuxonImpl.r_view r = None /\ LuxonImpl.r_fromNow r = "now")
  /\ (forall reference_date reference_timezone unit dt,
        LuxonImpl.parseDateWithTimezone tzdb defaultZone other now reference_date
          (Some (LuxonImpl.orElse reference_timezone timezone)) = Some dt ->
        exists r,
          LuxonImpl.get_time_difference tzdb defaultZone other intl rel timezone
            reference_date reference_timezone unit req locale now = inl r
          /\ LuxonImpl.f_reference_date r = None
          /\ LuxonImpl.f_current_date r = None
          /\ LuxonImpl.f_difference r = None
          /\ LuxonImpl.f_is_past r = false
          /\ LuxonImpl.f_relative r = "future"
          /\ LuxonImpl.f_human_readable r = "now").
Proof.
  intros tzdb defaultZone other intl rel nts timezone req locale now Hz.
  split.
  - intros amount unit base_date base_timezone now2 dt Ht Hp.
    unfold LuxonImpl.calculate_date. rewrite Ht, Hp.
    eexists. split; [reflexivity|].
    cbn [LuxonImpl.r_calculation LuxonImpl.k_base_date LuxonImpl.r_view
         LuxonImpl.r_fromNow option_map].
    unfold setZoneNamed, LuxonImpl.nowIn, setZoneNamed. rewrite Hz.
    repeat split.
  - intros reference_date reference_timezone unit dt Hp.
    unfold LuxonImpl.get_time_difference. rewrite Hp.
    eexists. split; [reflexivity|].
    cbn [LuxonImpl.f_reference_date LuxonImpl.f_current_date
         LuxonImpl.f_difference LuxonImpl.f_is_past LuxonImpl.f_relative
         LuxonImpl.f_human_readable].
    unfold setZoneNamed, LuxonImpl.nowIn, setZoneNamed. rewrite Hz.
    repeat split.
Qed.

Lemma X27_witness :
  normalizeZone Tz.tzdb utcZone (LuxonImpl.orElse (Some "Mars/Phobos") "UTC") = None
  /\ exists r,
       LuxonImpl.get_time_difference Tz.tzdb utcZone Tz.noOther Tz.noText
         relFormatEn "UTC" "2025-01-01T00:00:00Z" None LuxonImpl.d_all
         (Some "Mars/Phobos") "en-US" 1736294400000 = inl r
       /\ LuxonImpl.f_difference r = None
       /\ LuxonImpl.f_human_readable r = "now".
Proof.
  split; [reflexivity|].
  destruct (X27_unknown_target_zone_is_not_reported Tz.tzdb utcZone Tz.noOther
              Tz.noText relFormatEn Tz.noNumber "UTC" (Some "Mars/Phobos")
              "en-US" 1736294400000 eq_refl) as [_ G].
  destruct (G "2025-01-01T00:00:00Z" None LuxonImpl.d_all _ eq_refl)
    as (r & H & _ & _ & Hd & _ & _ & Hh).
  exists r. split; [exact H|]. split; [exact Hd | exact Hh].
Defined.


(** ** Day of the year and week number *)

Module WeekFacts.

Lemma ordinal_local dt :
  ordinal dt = DayWithinYear (millis dt + offset dt * 60 * 1000) + 1.
Proof.
  exact (DateFieldFacts.ordinal_is_day_within_year
           (millis dt + offset dt * 60 * 1000)).
Qed.

Lemma ordinal_bounds dt :
  1 <= ordinal dt <= DaysInYear (YearFromTime (millis dt + offset dt * 60 * 1000)).
Proof.
  rewrite ordinal_local.
  pose proof (DayWithinYear_bounds (millis dt + offset dt * 60 * 1000)). lia.
Qed.

Lemma weeksInWeekYear_bounds y : 52 <= weeksInWeekYear y <= 53.
Proof. unfold weeksInWeekYear. destruct (_ || _); lia. Qed.

Lemma weekNumberOf_bounds y m d :
  1 <= computeOrdinal y m d <= 366 -> 1 <= dayOfWeek y m d <= 7 ->
  1 <= weekNumberOf y m d <= 53.
Proof.
  unfold weekNumberOf. cbv zeta.
  generalize (computeOrdinal y m d) (dayOfWeek y m d). intros od wd Bo Bk.
  assert (Bn : 0 <= (od - wd + 10) / 7 <= 53)
    by (Z.div_mod_to_equations; lia).
  pose proof (weeksInWeekYear_bounds (y - 1)).
  pose proof (weeksInWeekYear_bounds y).
  destruct (Z.ltb_spec ((od - wd + 10) / 7) 1); [lia|].
  destruct (Z.ltb_spec (weeksInWeekYear y) ((od - wd + 10) / 7)); lia.
Qed.

Lemma DaysInYear_366 y : DaysInYear y <= 366.
Proof. unfold DaysInYear. destruct (isLeap y); lia. Qed.

Lemma ordinal_366 dt : 1 <= ordinal dt <= 366.
Proof.
  pose proof (ordinal_bounds dt) as B.
  pose proof (DaysInYear_366 (YearFromTime (millis dt + offset dt * 60 * 1000))) as D.
  revert B D.
  generalize (ordinal dt)
    (DaysInYear (YearFromTime (millis dt + offset dt * 60 * 1000))).
  intros; lia.
Qed.

Lemma dayOfWeek_bounds y m d : 1 <= dayOfWeek y m d <= 7.
Proof.
  unfold dayOfWeek. cbv zeta.
  pose proof (WeekdayFacts.WeekDay_bounds (MakeDate (MakeDay y (m - 1) d) 0)) as B.
  revert B. generalize (WeekDay (MakeDate (MakeDay y (m - 1) d) 0)).
  intros w B. destruct (Z.eqb_spec w 0); lia.
Qed.

Lemma weekNumber_bounds dt : 1 <= weekNumber dt <= 53.
Proof.
  unfold weekNumber. apply weekNumberOf_bounds.
  - exact (ordinal_366 dt).
  - apply dayOfWeek_bounds.
Qed.

End WeekFacts.

(** X28.  [getDayOfYear] and [getWeekNumber] of the second implementation,
    for every [DateTime]: the day of the year is the day within the local
    year counted from 1, between 1 and 365 (366 in a leap year), and the
    week number is between 1 and 53. *)
Theorem X28_luxon_ordinal_and_week :
  forall dt : DateTime,
  let local := millis dt + offset dt * 60 * 1000 in
  LuxonImpl.getDayOfYear dt = DayWithinYear local + 1
  /\ 1 <= LuxonImpl.getDayOfYear dt <= DaysInYear (YearFromTime local)
  /\ 1 <= LuxonImpl.getWeekNumber dt <= 53.
Proof.
  intros dt local.
  split; [exact (WeekFacts.ordinal_local dt)|].
  split; [exact (WeekFacts.ordinal_bounds dt) | exact (WeekFacts.weekNumber_bounds dt)].
Qed.

(** X29.  [get_time_difference] of the first implementation is symmetric:
    for two instants [a] and [b] with years in 0..9999, asking about [a]
    when the clock shows [b] and asking about [b] when the clock shows [a]
    give the same [difference] object, the dates exchanged, and, when the
    instants differ, opposite [is_past]. *)
Theorem X29_date_difference_is_symmetric :
  forall host legacy (a b : Z) (u : DateImpl.DiffUnit),
  0 <= YearFromTime a <= 9999 -> 0 <= YearFromTime b <= 9999 ->
  exists r1 r2,
    DateImpl.get_time_difference host legacy (DateImpl.toISOString a) u b = inl r1
    /\ DateImpl.get_time_difference host legacy (DateImpl.toISOString b) u a
       = inl r2
    /\ DateImpl.f_difference r1 = DateImpl.f_difference r2
    /\ DateImpl.f_target_date r1 = DateImpl.f_current_date r2
    /\ DateImpl.f_current_date r1 = DateImpl.f_target_date r2
    /\ (a <> b -> DateImpl.f_is_past r1 = negb (DateImpl.f_is_past r2)).
Proof.
  intros host legacy a b u Ha Hb.
  unfold DateImpl.get_time_difference.
  rewrite !DateTextFacts.dateParse_toISOString by assumption.
  do 2 eexists. split; [reflexivity|]. split; [reflexivity|].
  cbn [DateImpl.f_difference DateImpl.f_target_date DateImpl.f_current_date
       DateImpl.f_is_past].
  replace (Z.abs (a - b)) with (Z.abs (b - a)) by lia.
  split; [reflexivity|]. split; [reflexivity|]. split; [reflexivity|].
  intros Hne.
  destruct (Z.ltb_spec 0 (b - a)), (Z.ltb_spec 0 (a - b)); cbn [negb];
    try reflexivity; lia.
Qed.

Lemma X29_witness :
  exists r1 r2,
    DateImpl.get_time_difference (DateImpl.fixedHost 0) Tz.noLegacy
      "2025-01-01T00:00:00.000Z" DateImpl.d_all 1736294400000 = inl r1
    /\ DateImpl.get_time_difference (DateImpl.fixedHost 0) Tz.noLegacy
         "2025-01-08T00:00:00.000Z" DateImpl.d_all 1735689600000 = inl r2
    /\ DateImpl.f_difference r1 = DateImpl.f_difference r2
    /\ DateImpl.f_is_past r1 = true /\ DateImpl.f_is_past r2 = false.
Proof.
  destruct (X29_date_difference_is_symmetric (DateImpl.fixedHost 0) Tz.noLegacy
              1735689600000 1736294400000 DateImpl.d_all)
    as (r1 & r2 & H1 & H2 & Hd & _ & _ & Hp).
  - vm_compute. split; discriminate.
  - vm_compute. split; discriminate.
  - exists r1, r2.
    split; [exact H1|]. split; [exact H2|]. split; [exact Hd|].
    vm_compute in H1. inversion H1. vm_compute in H2. inversion H2.
    split; reflexivity.
Defined.
